(** * A shallow embedding of [src/app.py]

    The program is a Slack event listener.  One inbound [message] event is
    routed, by tests on its text and subtype, to one of four blocks of
    [on_message]: wiping the knowledge base, filing a GitHub issue, ingesting
    an uploaded file, or answering a query.

    Modelling choices.
    - A Python [str] is a [string]: a UTF-8 byte sequence.  [lower] and the
      whitespace test behind [strip] follow Python on the ASCII range and
      leave every other byte alone.
    - A [dict] that is only read ([event], a file object) is a record whose
      fields are [option]s: [None] stands for an absent key, so [d.get(k)] is
      the field and [d[k]] raises on [None].
    - Every call that leaves the module (Slack client, [requests], the [rag]
      module, the file system, logging) is an entry of the [trace] kept in
      the state.  What the outside world answers is given by an [Env] of
      oracles; each oracle sees the trace so far, hence may answer the same
      call differently at different times.
    - Python exceptions are the [Raise] case of [result]; [try]/[except
      Exception] is [try_except].  Module globals ([BOT_USER_ID],
      [INDEXED_FILE_IDS]) are fields of [state]. *)

From Stdlib Require Import String Ascii ZArith DecimalString Bool List Lia.
From stdpp Require Import gmap strings list.
Import ListNotations.
Open Scope string_scope.

(* stdpp freezes [String.append] under [simpl]; the proofs below compute
   with string literals. *)
Arguments String.append !s1 s2 : simpl nomatch.

(** ** Python string primitives used by the source *)

Module PyStr.

(** [str.isspace] on the ASCII range: TAB..CR, FS..US and the blank. *)
Definition isspace (c : ascii) : bool :=
  let n := nat_of_ascii c in
  ((9 <=? n) && (n <=? 13) || (28 <=? n) && (n <=? 32))%nat.

Definition lower_char (c : ascii) : ascii :=
  let n := nat_of_ascii c in
  if ((65 <=? n) && (n <=? 90))%nat then ascii_of_nat (n + 32) else c.

(** [s.lower()] *)
Fixpoint lower (s : string) : string :=
  match s with
  | "" => ""
  | String c s' => String (lower_char c) (lower s')
  end.

(** [s.startswith(p)] *)
Fixpoint startswith (p s : string) : bool :=
  match p, s with
  | "", _ => true
  | String a p', String b s' => Ascii.eqb a b && startswith p' s'
  | String _ _, "" => false
  end.

(** [s[n:]] *)
Fixpoint skip (n : nat) (s : string) : string :=
  match n, s with
  | O, _ => s
  | S n', String _ s' => skip n' s'
  | S _, "" => ""
  end.

(** [s.endswith(suf)] *)
Definition endswith (suf s : string) : bool :=
  (String.length suf <=? String.length s)%nat
  && String.eqb (skip (String.length s - String.length suf) s) suf.

(** [sub in s] *)
Fixpoint contains (sub s : string) : bool :=
  startswith sub s
  || match s with
     | "" => false
     | String _ s' => contains sub s'
     end.

(** [s.replace(old, "", 1)]: the first occurrence of [old] is cut out. *)
Fixpoint replace1 (old s : string) {struct s} : string :=
  if startswith old s then skip (String.length old) s
  else match s with
       | "" => ""
       | String c s' => String c (replace1 old s')
       end.

Fixpoint lstrip (s : string) : string :=
  match s with
  | "" => ""
  | String c s' => if isspace c then lstrip s' else s
  end.

Fixpoint rstrip (s : string) : string :=
  match s with
  | "" => ""
  | String c s' =>
      match rstrip s' with
      | "" => if isspace c then "" else String c ""
      | r => String c r
      end
  end.

(** [s.strip()] *)
Definition strip (s : string) : string := rstrip (lstrip s).

(** [s.split(sep, 1)] when [sep] occurs in [s]: the parts before and after
    its first occurrence.  [None] when [sep] does not occur (Python then
    returns the one-element list [[s]]). *)
Fixpoint split1 (sep : ascii) (s : string) : option (string * string) :=
  match s with
  | "" => None
  | String c s' =>
      if Ascii.eqb c sep then Some ("", s')
      else match split1 sep s' with
           | Some (a, b) => Some (String c a, b)
           | None => None
           end
  end.

(** [s.split(sep)] *)
Fixpoint split (sep : ascii) (s : string) : list string :=
  match s with
  | "" => [""]
  | String c s' =>
      if Ascii.eqb c sep then "" :: split sep s'
      else match split sep s' with
           | h :: t => String c h :: t
           | [] => [String c ""]
           end
  end.

(** [s.rfind(ch)], [None] for -1 *)
Fixpoint rfind (ch : ascii) (s : string) : option nat :=
  match s with
  | "" => None
  | String c s' =>
      match rfind ch s' with
      | Some i => Some (S i)
      | None => if Ascii.eqb c ch then Some O else None
      end
  end.

(** [str(n)] for an [int] *)
Definition str_Z (n : Z) : string := NilZero.string_of_int (Z.to_int n).

(** [str(n)] for a length *)
Definition str_nat (n : nat) : string := NilZero.string_of_uint (Nat.to_uint n).

End PyStr.
Import PyStr.

(** [pathlib.Path(p).suffix] (POSIX flavour, Python before 3.14): the last
    path component that is neither empty nor ["."], cut at its last dot when
    that dot is neither its first nor its last character. *)
Definition path_name (p : string) : string :=
  List.last
    (List.filter (fun x => negb (String.eqb x "") && negb (String.eqb x "."))
       (split "/" p))
    "".

Definition path_suffix (p : string) : string :=
  let name := path_name p in
  match rfind "." name with
  | Some i =>
      if ((0 <? i) && (i <? String.length name - 1))%nat then skip i name else ""
  | None => ""
  end.

(** ** Python values *)

(** Truth value of [d.get(k)] for a string-valued key. *)
Definition truthy (o : option string) : bool :=
  match o with
  | Some s => negb (String.eqb s "")
  | None => false
  end.

(** [a or b] *)
Definition py_or (a b : option string) : option string :=
  if truthy a then a else b.

(** [d.get(k) == lit] *)
Definition opt_eqb (o : option string) (lit : string) : bool :=
  match o with
  | Some s => String.eqb s lit
  | None => false
  end.

(** [a or lit] with a string literal on the right *)
Definition or_str (a : option string) (lit : string) : string :=
  match a with
  | Some s => if String.eqb s "" then lit else s
  | None => lit
  end.

(** [f"{x}"] for a value that may be [None] *)
Definition fmt (o : option string) : string := default "None" o.

(** An exception object, as far as the program looks at it: [str(e)].
    Only subclasses of [Exception] are modelled. *)
Inductive exn : Type := Exception (msg : string).

Definition str_exn (e : exn) : string := let 'Exception m := e in m.

Inductive result (A : Type) : Type :=
| Ok (a : A)
| Raise (e : exn).
Arguments Ok {A} a.
Arguments Raise {A} e.

Definition is_ok {A} (r : result A) : bool :=
  match r with Ok _ => true | Raise _ => false end.

Definition bytes := list Byte.byte.

(** ** Data model *)

(** Environment variables read at import time. *)
Record config : Type := {
  SLACK_BOT_TOKEN : string;
  GITHUB_TOKEN : option string;
  GITHUB_OWNER : option string;
  GITHUB_REPO : option string
}.

(** An entry of [event["files"]]. *)
Record file_ref : Type := { f_id : option string }.

(** The [event] dict of a Slack [message] event. *)
Record event : Type := {
  ev_type : option string;
  ev_subtype : option string;
  ev_bot_id : option string;
  ev_channel : option string;
  ev_thread_ts : option string;
  ev_ts : option string;
  ev_text : option string;
  ev_user : option string;
  ev_files : list file_ref       (* event.get("files", []) *)
}.

(** [client.files_info(file=...)["file"]] *)
Record file_obj : Type := {
  fo_id : option string;
  fo_url_private_download : option string;
  fo_url_private : option string;
  fo_name : option string;
  fo_title : option string
}.

(** [client.users_info(user=...)["user"]], with the two names the source
    reads ([profile.display_name], [real_name]). *)
Record user_obj : Type := { display_name : string; real_name : string }.

(** A [requests.Response].  [json] is the outcome of
    [r.json()["number"], r.json()["html_url"]]. *)
Record response : Type := {
  status_code : Z;
  reason : string;
  headers : list (string * string);
  url : string;
  content : bytes;
  json : result (Z * string)
}.

(** [requests] keeps headers in a case-insensitive dict. *)
Fixpoint header_get (k : string) (h : list (string * string)) : option string :=
  match h with
  | [] => None
  | (k', v) :: t => if String.eqb (lower k') (lower k) then Some v else header_get k t
  end.

(** ** Effects *)

Inductive call : Type :=
| auth_test
| delete_all_embeddings
| chat_postMessage (channel thread_ts : option string) (text : string)
| requests_get (target : string) (hdrs : list (string * string))
    (allow_redirects : bool) (timeout : Z)
| requests_post (target : string) (hdrs : list (string * string))
    (title body : string) (timeout : Z)
| files_info (file : string)
| users_info (user : string)
| write_bytes (dest : string) (data : bytes)
| index_slack_file_bytes (file_bytes : bytes) (fobj : file_obj)
    (user_id : string) (channel_id : option string)
| answer_query (text : string) (slack_channel : option string) (k : Z)
| logger_exception (msg : string)
| logger_info (msg : string)
| print (msg : string).

(** A call together with whether it returned ([true]) or raised. *)
Definition entry : Type := call * bool.

(** The answers of the outside world.  A lookup the source performs right on
    a returned value ([auth_test()["user_id"]], [files_info(...)["file"]],
    the name of [users_info], the two keys of [r.json()]) is part of the
    oracle: a missing key is a [Raise] of the oracle. *)
Record Env : Type := {
  on_auth_test : list entry -> result string;
  on_delete_all_embeddings : list entry -> result Z;
  on_chat_postMessage :
    list entry -> option string -> option string -> string -> result unit;
  on_requests_get : list entry -> string -> bool -> result response;
  on_requests_post : list entry -> string -> string -> string -> result response;
  on_files_info : list entry -> string -> result file_obj;
  on_users_info : list entry -> string -> result user_obj;
  on_write_bytes : list entry -> string -> bytes -> result unit;
  on_index_slack_file_bytes :
    list entry -> bytes -> file_obj -> string -> option string -> result (list string);
  on_answer_query : list entry -> string -> option string -> Z -> result string
}.

Record state : Type := {
  BOT_USER_ID : option string;
  INDEXED_FILE_IDS : gset string;
  trace : list entry
}.

Definition initial_state : state :=
  {| BOT_USER_ID := None; INDEXED_FILE_IDS := ∅; trace := [] |}.

(** State and exception monad. *)
Definition M (A : Type) : Type := state -> result A * state.

Definition ret {A} (a : A) : M A := fun st => (Ok a, st).

Definition raise {A} (e : exn) : M A := fun st => (Raise e, st).

Definition bind {A B} (m : M A) (k : A -> M B) : M B :=
  fun st =>
    match m st with
    | (Ok a, st') => k a st'
    | (Raise e, st') => (Raise e, st')
    end.

Declare Scope py_scope.
Delimit Scope py_scope with py.
Notation "'let!' x ':=' m 'in' k" := (bind m (fun x => k))
  (at level 10, x name, m at level 100, k at level 200) : py_scope.
Notation "m ';;' k" := (bind m (fun _ => k))
  (at level 100, k at level 200, right associativity) : py_scope.
Open Scope py_scope.

(** [try: body except Exception as e: handler(e)] *)
Definition try_except {A} (body : M A) (handler : exn -> M A) : M A :=
  fun st =>
    match body st with
    | (Ok a, st') => (Ok a, st')
    | (Raise e, st') => handler e st'
    end.

Definition lift {A} (r : result A) : M A := fun st => (r, st).

Definition get_state : M state := fun st => (Ok st, st).

(** One call to the outside: the oracle answers from the trace so far, and
    the call is appended to the trace with its outcome. *)
Definition perform {A} (c : call) (oracle : list entry -> result A) : M A :=
  fun st =>
    let r := oracle (trace st) in
    (r, {| BOT_USER_ID := BOT_USER_ID st;
           INDEXED_FILE_IDS := INDEXED_FILE_IDS st;
           trace := trace st ++ [(c, is_ok r)] |}).

Definition set_BOT_USER_ID (uid : string) : M unit :=
  fun st =>
    (Ok tt, {| BOT_USER_ID := Some uid;
               INDEXED_FILE_IDS := INDEXED_FILE_IDS st;
               trace := trace st |}).

(** [INDEXED_FILE_IDS.add(file_id)] *)
Definition add_INDEXED_FILE_IDS (file_id : string) : M unit :=
  fun st =>
    (Ok tt, {| BOT_USER_ID := BOT_USER_ID st;
               INDEXED_FILE_IDS := {[ file_id ]} ∪ INDEXED_FILE_IDS st;
               trace := trace st |}).

Definition ALLOWED_EXTENSIONS : gset string := {[ ".pdf"; ".docx" ]}.

(** ** The program *)

Section Program.

Variable cfg : config.
Variable env : Env.

(** *** Calls to the collaborators *)

Definition post (channel thread_ts : option string) (text : string) : M unit :=
  perform (chat_postMessage channel thread_ts text)
    (fun h => on_chat_postMessage env h channel thread_ts text).

Definition http_get (target : string) (hdrs : list (string * string))
    (allow_redirects : bool) (timeout : Z) : M response :=
  perform (requests_get target hdrs allow_redirects timeout)
    (fun h => on_requests_get env h target allow_redirects).

Definition http_post (target : string) (hdrs : list (string * string))
    (title body : string) (timeout : Z) : M response :=
  perform (requests_post target hdrs title body timeout)
    (fun h => on_requests_post env h target title body).

Definition log_exception (msg : string) : M unit :=
  perform (logger_exception msg) (fun _ => Ok tt).

(** [r.raise_for_status()] *)
Definition raise_for_status (r : response) : M unit :=
  let sc := status_code r in
  if ((400 <=? sc) && (sc <? 500))%Z then
    raise (Exception (str_Z sc ++ " Client Error: " ++ reason r
                        ++ " for url: " ++ url r))
  else if ((500 <=? sc) && (sc <? 600))%Z then
    raise (Exception (str_Z sc ++ " Server Error: " ++ reason r
                        ++ " for url: " ++ url r))
  else ret tt.

(** *** [download_slack_file] *)

Definition HEADERS : list (string * string) :=
  [("Authorization", "Bearer " ++ SLACK_BOT_TOKEN cfg)].

Definition redirect_status (sc : Z) : bool :=
  existsb (Z.eqb sc) [301; 302; 303; 307; 308]%Z.

(** Lines 27-32: the first request, and the hop to [Location]. *)
Definition fetch (url_private_download : string) : M response :=
  let! r := http_get url_private_download HEADERS false 60 in
  if redirect_status (status_code r) then
    match header_get "Location" (headers r) with
    | Some loc => http_get loc HEADERS true 60
    | None => ret r
    end
  else ret r.

Definition html_error (r : response) : exn :=
  Exception ("Got HTML, not file bytes. URL=" ++ url r).

(** Lines 34-41, on the response [fetch] ended with. *)
Definition download_slack_file (url_private_download : string) : M bytes :=
  let! r := fetch url_private_download in
  raise_for_status r ;;
  let ct := lower (or_str (header_get "Content-Type" (headers r)) "") in
  if contains "text/html" ct then raise (html_error r)
  else ret (content r).

(** *** [create_github_issue] *)

Definition missing_configuration : exn :=
  Exception
    "Missing GitHub configuration. Set GITHUB_TOKEN, GITHUB_OWNER, and GITHUB_REPO.".

Definition create_github_issue (title body : string) : M (Z * string) :=
  if negb (truthy (GITHUB_TOKEN cfg) && truthy (GITHUB_OWNER cfg)
           && truthy (GITHUB_REPO cfg))
  then raise missing_configuration
  else
    let target := "https://api.github.com/repos/" ++ fmt (GITHUB_OWNER cfg)
                    ++ "/" ++ fmt (GITHUB_REPO cfg) ++ "/issues" in
    let hdrs := [("Accept", "application/vnd.github+json");
                 ("Authorization", "Bearer " ++ fmt (GITHUB_TOKEN cfg));
                 ("X-GitHub-Api-Version", "2022-11-28")] in
    let! r := http_post target hdrs title body 30 in
    raise_for_status r ;;
    lift (json r).

(** *** [_cache_bot_id] *)

Definition _cache_bot_id : M unit :=
  let! st := get_state in
  if truthy (BOT_USER_ID st) then ret tt
  else
    let! uid := perform auth_test (on_auth_test env) in
    set_BOT_USER_ID uid ;;
    perform (logger_info ("Cached BOT_USER_ID=" ++ uid)) (fun _ => Ok tt).

(** *** [on_message] *)

(** [f"<@{BOT_USER_ID}>"] *)
Definition mention (bot : string) : string := "<@" ++ bot ++ ">".

(** Lines 79-81. *)
Definition ensure_bot_user_id : M string :=
  let! st := get_state in
  if truthy (BOT_USER_ID st) then ret (fmt (BOT_USER_ID st))
  else
    let! uid := perform auth_test (on_auth_test env) in
    set_BOT_USER_ID uid ;;
    perform (print uid) (fun _ => Ok tt) ;;
    ret uid.

(** [event[k]] *)
Definition getitem (key : string) (v : option string) : M string :=
  match v with
  | Some s => ret s
  | None => raise (Exception ("'" ++ key ++ "'"))
  end.

(** Line 91. *)
Definition delete_condition (bot raw_text : string) : bool :=
  contains (mention bot) raw_text && endswith "delete" (lower raw_text).

(** Lines 92-97. *)
Definition delete_block (ev : event) : M unit :=
  perform delete_all_embeddings (on_delete_all_embeddings env) ;;
  let! ch := getitem "channel" (ev_channel ev) in
  post (Some ch) None "✅ Deleted all embeddings.".

(** Lines 99-103. *)
Definition issue_condition (bot raw_text : string) : bool :=
  let lower_text := lower raw_text in
  startswith "issue" lower_text
  || startswith "@BoltApp issue" lower_text
  || (contains (mention bot) raw_text
      && startswith (mention bot ++ " issue") lower_text).

(** Lines 104-108. *)
Definition issue_payload (bot raw_text : string) : string :=
  let cmd_text :=
    if startswith "@BoltApp issue" (lower raw_text)
    then strip (skip (String.length "@BoltApp") raw_text)
    else strip (replace1 (mention bot) raw_text) in
  strip (skip (String.length "issue") cmd_text).

(** Lines 110-115.  ["|" in payload] holds exactly when [split1] finds the
    two parts (lemma [contains_char]). *)
Definition title_body (payload : string) : string * string :=
  if contains "|" payload then
    match split1 "|" payload with
    | Some (title_part, body_part) => (strip title_part, strip body_part)
    | None => ("", "")
    end
  else (strip payload, "").

Definition usage_text : string := "❌ Usage: `<@bot> issue Title | optional body`".

(** Line 126. *)
Definition default_body (user : string) (channel : option string) : string :=
  "Created via Slack by <@" ++ user ++ "> in channel " ++ fmt channel ++ ".".

(** Lines 108-142. *)
Definition issue_block (ev : event) (bot raw_text : string) : M unit :=
  let channel := ev_channel ev in
  let thread_ts := py_or (ev_thread_ts ev) (ev_ts ev) in
  let '(title, body) := title_body (issue_payload bot raw_text) in
  if String.eqb title "" then post channel thread_ts usage_text
  else
    let! body :=
      (if String.eqb body "" then
         let! user := getitem "user" (ev_user ev) in
         ret (default_body user channel)
       else ret body) in
    try_except
      (let! issue := create_github_issue title body in
       post channel thread_ts
         ("✅ Created GitHub issue #" ++ str_Z (fst issue) ++ ": " ++ snd issue))
      (fun e =>
         log_exception "Failed creating GitHub issue" ;;
         post channel thread_ts ("❌ Failed to create issue: " ++ str_exn e)).

(** Lines 178-202: the [try] statement of the upload loop. *)
Definition ingest (ev : event) (file_id : string) (fobj : file_obj)
    (target name : string) : M unit :=
  let channel := ev_channel ev in
  let thread_ts := py_or (ev_thread_ts ev) (ev_ts ev) in
  let dest := "saved_files/" ++ file_id ++ "-" ++ name in
  try_except
    (let! data := download_slack_file target in
     perform (write_bytes dest data) (fun h => on_write_bytes env h dest data) ;;
     let! user_id := getitem "user" (ev_user ev) in
     let! result := perform (users_info user_id)
                      (fun h => on_users_info env h user_id) in
     let user_name :=
       if String.eqb (display_name result) "" then real_name result
       else display_name result in
     let! ids := perform (index_slack_file_bytes data fobj user_name channel)
                   (fun h => on_index_slack_file_bytes env h data fobj user_name channel) in
     add_INDEXED_FILE_IDS file_id ;;
     post channel thread_ts
       ("✅ Saved `" ++ name ++ "` and indexed "
          ++ str_nat (length ids) ++ " chunks."))
    (fun e =>
       log_exception "Failed processing uploaded file" ;;
       post channel thread_ts
         ("❌ Failed to process `" ++ name ++ "`: " ++ str_exn e)).

(** Lines 146-203: the [for] loop.  The result tells whether the loop left
    [on_message] through the [return] of line 203 ([true]) or ran out of
    file references ([false]). *)
Fixpoint upload_loop (ev : event) (files : list file_ref) : M bool :=
  let channel := ev_channel ev in
  let thread_ts := py_or (ev_thread_ts ev) (ev_ts ev) in
  match files with
  | [] => ret false
  | f :: rest =>
      if negb (truthy (f_id f)) then upload_loop ev rest
      else
        let file_id := fmt (f_id f) in
        let! st := get_state in
        if bool_decide (file_id ∈ INDEXED_FILE_IDS st) then upload_loop ev rest
        else
          let! fobj := perform (files_info file_id)
                         (fun h => on_files_info env h file_id) in
          let target := py_or (fo_url_private_download fobj) (fo_url_private fobj) in
          let name := or_str (py_or (fo_name fobj) (fo_title fobj)) (file_id ++ ".bin") in
          if negb (truthy target) then
            post channel thread_ts
              ("❌ Could not find a download URL for `" ++ name ++ "`.") ;;
            upload_loop ev rest
          else
            let ext := lower (path_suffix name) in
            if negb (bool_decide (ext ∈ ALLOWED_EXTENSIONS)) then
              post channel thread_ts
                ("❌ Unsupported file type `"
                   ++ (if String.eqb ext "" then name else ext)
                   ++ "`. Only .pdf and .docx are allowed.") ;;
              upload_loop ev rest
            else
              ingest ev file_id fobj (fmt target) name ;;
              ret true
  end.

(** Lines 206-220. *)
Definition query_block (ev : event) : M unit :=
  let channel := ev_channel ev in
  let thread_ts := py_or (ev_thread_ts ev) (ev_ts ev) in
  let text := strip (or_str (ev_text ev) "") in
  if String.eqb text "" then ret tt
  else
    try_except
      (let! answer := perform (answer_query text channel 4)
                        (fun h => on_answer_query env h text channel 4) in
       post channel thread_ts answer)
      (fun e =>
         log_exception "Failed answering query" ;;
         post channel thread_ts ("❌ Error answering: " ++ str_exn e)).

Definition bot_origin (ev : event) : bool :=
  truthy (ev_bot_id ev) || opt_eqb (ev_subtype ev) "bot_message".

(** Line 88. *)
Definition raw_text_of (ev : event) : string :=
  strip (or_str (ev_text ev) "").

Definition query_condition (ev : event) : bool :=
  opt_eqb (ev_type ev) "message" && negb (truthy (ev_subtype ev))
  && truthy (ev_text ev).

Definition on_message (ev : event) : M unit :=
  if bot_origin ev then ret tt
  else
    let! bot := ensure_bot_user_id in
    let raw_text := raw_text_of ev in
    if delete_condition bot raw_text then delete_block ev
    else if issue_condition bot raw_text then issue_block ev bot raw_text
    else
      let! returned :=
        (if opt_eqb (ev_subtype ev) "file_share"
         then upload_loop ev (ev_files ev)
         else ret false) in
      if returned then ret tt
      else if query_condition ev then query_block ev
      else ret tt.

End Program.

(** ** The dispatch decision

    [on_message] has no classifier of its own: the decision of the
    specification (section 4.1) is the branch its chain of [if]s takes.
    [classify] names that branch, with the conditions of the source, and
    [handle] is the block run for it; lemma [on_message_dispatch] below shows
    that [on_message] is [handle] after [classify]. *)

Inductive decision : Type :=
| Ignore
| Delete
| FileIssue (title body : string)
| FileUpload
| Query (text : string).

Definition classify (bot : string) (ev : event) : decision :=
  if bot_origin ev then Ignore
  else
    let raw_text := raw_text_of ev in
    if delete_condition bot raw_text then Delete
    else if issue_condition bot raw_text then
      let tb := title_body (issue_payload bot raw_text) in
      FileIssue (fst tb) (snd tb)
    else if opt_eqb (ev_subtype ev) "file_share" then
      match ev_files ev with
      | [] => Ignore
      | _ :: _ => FileUpload
      end
    else if query_condition ev && negb (String.eqb raw_text "") then Query raw_text
    else Ignore.

Definition handle (cfg : config) (env : Env) (ev : event) (bot : string)
    (d : decision) : M unit :=
  match d with
  | Ignore => ret tt
  | Delete => delete_block env ev
  | FileIssue _ _ => issue_block cfg env ev bot (raw_text_of ev)
  | FileUpload => upload_loop cfg env ev (ev_files ev) ;; ret tt
  | Query _ => query_block env ev
  end.

(** Running a list of events one after the other.  An exception that leaves
    [on_message] is swallowed by the framework that called it; the globals
    stay as the listener left them. *)
Definition run (cfg : config) (env : Env) (evs : list event) (st : state) : state :=
  fold_left (fun s ev => snd (on_message cfg env ev s)) evs st.

(** ** The set of indexed file ids *)

(** The file an indexing call is about, and whether the call returned: the
    source passes the file object it got from [files_info], whose [id] is
    the id asked for (see [files_info_faithful]). *)
Definition indexing (e : entry) : option (string * bool) :=
  match e with
  | (index_slack_file_bytes _ fobj _ _, ok) =>
      match fo_id fobj with
      | Some file_id => Some (file_id, ok)
      | None => None
      end
  | _ => None
  end.

Definition indexings (l : list entry) : list (string * bool) := omap indexing l.

(** [files.info] answers with the object of the file it was asked about. *)
Definition files_info_faithful (env : Env) : Prop :=
  forall h file_id fobj,
    on_files_info env h file_id = Ok fobj -> fo_id fobj = Some file_id.

(** What a computation does to the pair (indexing calls, indexed set): it
    extends the trace by [new], and [R] relates the set before, the indexing
    calls of [new] and the set after. *)
Definition effect {A} (R : gset string -> list (string * bool) -> gset string -> Prop)
    (m : M A) : Prop :=
  forall st,
    exists new,
      trace (snd (m st)) = List.app (trace st) new
      /\ R (INDEXED_FILE_IDS st) (indexings new) (INDEXED_FILE_IDS (snd (m st))).

Definition unchanged (S : gset string) (l : list (string * bool)) (S' : gset string) : Prop :=
  l = [] /\ S' = S.

(** One attempt on [file_id]: nothing submitted, or one submission that
    failed, or one that succeeded and put the id into the set. *)
Definition one_attempt (file_id : string) (S : gset string)
    (l : list (string * bool)) (S' : gset string) : Prop :=
  unchanged S l S'
  \/ (l = [(file_id, false)] /\ S' = S)
  \/ (l = [(file_id, true)] /\ S' = ({[ file_id ]} ∪ S)).

(** One event: at most one attempt, on an id that is not in the set. *)
Definition one_event (S : gset string) (l : list (string * bool)) (S' : gset string) : Prop :=
  unchanged S l S' \/ exists file_id, (file_id ∉ S) /\ one_attempt file_id S l S'.


(** ** Concrete worlds used by the examples *)

Module Scenario.

Definition cfg0 : config :=
  {| SLACK_BOT_TOKEN := "xoxb-1";
     GITHUB_TOKEN := Some "ghp_1";
     GITHUB_OWNER := Some "acme";
     GITHUB_REPO := Some "tracker" |}.

(** The same process with [GITHUB_REPO] unset. *)
Definition cfg_no_repo : config :=
  {| SLACK_BOT_TOKEN := "xoxb-1";
     GITHUB_TOKEN := Some "ghp_1";
     GITHUB_OWNER := Some "acme";
     GITHUB_REPO := None |}.

Definition file_response : response :=
  {| status_code := 200; reason := "OK";
     headers := [("Content-Type", "application/pdf")];
     url := "https://files.slack.com/f"; content := [Byte.x25; Byte.x50];
     json := Raise (Exception "Expecting value") |}.

Definition redirect_response : response :=
  {| status_code := 302; reason := "Found";
     headers := [("location", "https://files.slack.com/f")];
     url := "https://acme.slack.com/f"; content := [];
     json := Raise (Exception "Expecting value") |}.

Definition login_page : response :=
  {| status_code := 200; reason := "OK";
     headers := [("content-type", "Text/HTML; charset=utf-8")];
     url := "https://acme.slack.com/login"; content := [Byte.x3c];
     json := Raise (Exception "Expecting value") |}.

Definition created_response : response :=
  {| status_code := 201; reason := "Created"; headers := [];
     url := "https://api.github.com/repos/acme/tracker/issues"; content := [];
     json := Ok (7%Z, "https://github.com/acme/tracker/issues/7") |}.

Definition file_of (file_id : string) : file_obj :=
  {| fo_id := Some file_id;
     fo_url_private_download := Some ("https://acme.slack.com/" ++ file_id);
     fo_url_private := None;
     fo_name := Some (file_id ++ ".pdf");
     fo_title := None |}.

(** A world in which every call succeeds.  The bot's id has the shape of a
    Slack user id. *)
Definition calm : Env :=
  {| on_auth_test := fun _ => Ok "U012AB3CD";
     on_delete_all_embeddings := fun _ => Ok 0%Z;
     on_chat_postMessage := fun _ _ _ _ => Ok tt;
     on_requests_get := fun _ _ _ => Ok file_response;
     on_requests_post := fun _ _ _ _ => Ok created_response;
     on_files_info := fun _ file_id => Ok (file_of file_id);
     on_users_info := fun _ _ => Ok {| display_name := "ann"; real_name := "Ann" |};
     on_write_bytes := fun _ _ _ => Ok tt;
     on_index_slack_file_bytes := fun _ _ _ _ _ => Ok ["c1"; "c2"];
     on_answer_query := fun _ _ _ _ => Ok "42" |}.

Definition with_get (f : list entry -> string -> bool -> result response) : Env :=
  {| on_auth_test := on_auth_test calm;
     on_delete_all_embeddings := on_delete_all_embeddings calm;
     on_chat_postMessage := on_chat_postMessage calm;
     on_requests_get := f;
     on_requests_post := on_requests_post calm;
     on_files_info := on_files_info calm;
     on_users_info := on_users_info calm;
     on_write_bytes := on_write_bytes calm;
     on_index_slack_file_bytes := on_index_slack_file_bytes calm;
     on_answer_query := on_answer_query calm |}.

(** The download endpoint answers with a redirect, the mirror with the file. *)
Definition redirecting : Env :=
  with_get (fun _ target _ =>
    if String.eqb target "https://files.slack.com/f" then Ok file_response
    else Ok redirect_response).

(** Every download ends on a login page. *)
Definition logged_out : Env := with_get (fun _ _ _ => Ok login_page).

(** The network is down for downloads. *)
Definition offline : Env :=
  with_get (fun _ _ _ => Raise (Exception "Connection refused")).

(** The knowledge base refuses to be wiped. *)
Definition stuck_store : Env :=
  {| on_auth_test := on_auth_test calm;
     on_delete_all_embeddings := fun _ => Raise (Exception "store unavailable");
     on_chat_postMessage := on_chat_postMessage calm;
     on_requests_get := on_requests_get calm;
     on_requests_post := on_requests_post calm;
     on_files_info := on_files_info calm;
     on_users_info := on_users_info calm;
     on_write_bytes := on_write_bytes calm;
     on_index_slack_file_bytes := on_index_slack_file_bytes calm;
     on_answer_query := on_answer_query calm |}.



Definition message (text : string) : event :=
  {| ev_type := Some "message"; ev_subtype := None; ev_bot_id := None;
     ev_channel := Some "C1"; ev_thread_ts := None; ev_ts := Some "17.01";
     ev_text := Some text; ev_user := Some "U7"; ev_files := [] |}.

Definition file_share (ids : list string) : event :=
  {| ev_type := Some "message"; ev_subtype := Some "file_share";
     ev_bot_id := None; ev_channel := Some "C1"; ev_thread_ts := None;
     ev_ts := Some "17.02"; ev_text := Some ""; ev_user := Some "U7";
     ev_files := map (fun i => {| f_id := Some i |}) ids |}.

Definition calls (st : state) : list call := map fst (trace st).

End Scenario.


(** ** Which calls a computation makes *)

(** [thread_ts = event.get("thread_ts") or event.get("ts")] (line 84). *)
Definition thread_of (ev : event) : option string :=
  py_or (ev_thread_ts ev) (ev_ts ev).

(** A computation that leaves [BOT_USER_ID] alone and makes only calls that
    satisfy [P]. *)
Definition only {A} (P : call -> Prop) (m : M A) : Prop :=
  forall st,
    BOT_USER_ID (snd (m st)) = BOT_USER_ID st
    /\ exists new,
         trace (snd (m st)) = List.app (trace st) new
         /\ Forall (fun e => P (fst e)) new.

(** The calls each decision may lead to.  A reply goes to the channel of the
    event, and to its thread except for the confirmation of a Delete; a
    request to the tracker carries the title of the decision, and its body
    when it has one. *)
Definition permitted (ev : event) (d : decision) (c : call) : Prop :=
  match d, c with
  | Delete, delete_all_embeddings => True
  | Delete, chat_postMessage ch ts _ => ch = ev_channel ev /\ ts = None
  | FileIssue title body, requests_post _ _ title' body' _ =>
      title' = title /\ (String.eqb body "" = false -> body' = body)
  | FileIssue _ _, logger_exception _ => True
  | FileIssue _ _, chat_postMessage ch ts _ =>
      ch = ev_channel ev /\ ts = thread_of ev
  | FileUpload, files_info _ => True
  | FileUpload, requests_get _ _ _ _ => True
  | FileUpload, write_bytes _ _ => True
  | FileUpload, users_info _ => True
  | FileUpload, index_slack_file_bytes _ _ _ _ => True
  | FileUpload, logger_exception _ => True
  | FileUpload, chat_postMessage ch ts _ =>
      ch = ev_channel ev /\ ts = thread_of ev
  | Query text, answer_query text' ch k =>
      text' = text /\ ch = ev_channel ev /\ k = 4%Z
  | Query _, logger_exception _ => True
  | Query _, chat_postMessage ch ts _ => ch = ev_channel ev /\ ts = thread_of ev
  | _, _ => False
  end.

(** More worlds and events for the examples. *)
Module Cases.



Definition with_files_info (f : list entry -> string -> result file_obj) : Env :=
  {| on_auth_test := on_auth_test Scenario.calm;
     on_delete_all_embeddings := on_delete_all_embeddings Scenario.calm;
     on_chat_postMessage := on_chat_postMessage Scenario.calm;
     on_requests_get := on_requests_get Scenario.calm;
     on_requests_post := on_requests_post Scenario.calm;
     on_files_info := f;
     on_users_info := on_users_info Scenario.calm;
     on_write_bytes := on_write_bytes Scenario.calm;
     on_index_slack_file_bytes := on_index_slack_file_bytes Scenario.calm;
     on_answer_query := on_answer_query Scenario.calm |}.


(** Shared files come without any download URL. *)
Definition no_urls : Env :=
  with_files_info (fun _ file_id =>
    Ok {| fo_id := Some file_id;
          fo_url_private_download := None;
          fo_url_private := Some "";
          fo_name := None;
          fo_title := Some "notes" |}).

Definition files_info_down : Env :=
  with_files_info (fun _ _ => Raise (Exception "file_not_found")).



Definition not_found : response :=
  {| status_code := 404; reason := "Not Found";
     headers := [("Content-Type", "application/pdf")];
     url := "https://acme.slack.com/F1"; content := [Byte.x25];
     json := Raise (Exception "Expecting value") |}.

(** A redirect status that comes without a Location header. *)
Definition not_modified : response :=
  {| status_code := 304; reason := "Not Modified"; headers := [];
     url := "https://acme.slack.com/F1"; content := [];
     json := Raise (Exception "Expecting value") |}.

Definition unprocessable : response :=
  {| status_code := 422; reason := "Unprocessable Entity"; headers := [];
     url := "https://api.github.com/repos/acme/tracker/issues"; content := [];
     json := Ok (0%Z, "") |}.

Definition with_http
    (g : list entry -> string -> bool -> result response)
    (p : list entry -> string -> string -> string -> result response) : Env :=
  {| on_auth_test := on_auth_test Scenario.calm;
     on_delete_all_embeddings := on_delete_all_embeddings Scenario.calm;
     on_chat_postMessage := on_chat_postMessage Scenario.calm;
     on_requests_get := g;
     on_requests_post := p;
     on_files_info := on_files_info Scenario.calm;
     on_users_info := on_users_info Scenario.calm;
     on_write_bytes := on_write_bytes Scenario.calm;
     on_index_slack_file_bytes := on_index_slack_file_bytes Scenario.calm;
     on_answer_query := on_answer_query Scenario.calm |}.

Definition gone : Env :=
  with_http (fun _ _ _ => Ok not_found) (on_requests_post Scenario.calm).

Definition stale : Env :=
  with_http (fun _ _ _ => Ok not_modified) (on_requests_post Scenario.calm).

Definition tracker_rejects : Env :=
  with_http (on_requests_get Scenario.calm) (fun _ _ _ _ => Ok unprocessable).

(** A message event that lacks the [channel] key. *)
Definition no_channel (text : string) : event :=
  {| ev_type := Some "message"; ev_subtype := None; ev_bot_id := None;
     ev_channel := None; ev_thread_ts := None; ev_ts := Some "17.03";
     ev_text := Some text; ev_user := Some "U7"; ev_files := [] |}.


(** A message posted by a bot. *)
Definition from_bot (text : string) : event :=
  {| ev_type := Some "message"; ev_subtype := None; ev_bot_id := Some "B99";
     ev_channel := Some "C1"; ev_thread_ts := None; ev_ts := Some "17.05";
     ev_text := Some text; ev_user := None; ev_files := [] |}.

Definition cached : state :=
  {| BOT_USER_ID := Some "U012AB3CD"; INDEXED_FILE_IDS := ∅; trace := [] |}.

End Cases.

(** ** Facts about the string primitives *)

Section StringFacts.


















Lemma contains_char c s :
  contains (String c "") s = match split1 c s with Some _ => true | None => false end.
Proof.
  induction s as [|d s IH]; [reflexivity|].
  simpl. rewrite andb_true_r, (Ascii.eqb_sym c d).
  destruct (Ascii.eqb d c); [reflexivity|].
  simpl in IH. simpl. rewrite IH. now destruct (split1 c s) as [[? ?]|].
Qed.



End StringFacts.


(** ** Reasoning about the monad *)

Ltac unfold_m :=
  unfold bind, ret, raise, lift, try_except, get_state, perform,
    set_BOT_USER_ID, add_INDEXED_FILE_IDS in *.

Lemma truthy_None_false o : o = None -> truthy o = false.
Proof. now intros ->. Qed.

Lemma truthy_Some o : truthy o = true -> exists s, o = Some s /\ s <> "".
Proof.
  destruct o as [s|]; simpl; [|discriminate].
  intros H. exists s. split; [reflexivity|]. intros ->. discriminate H.
Qed.

Lemma bind_get_state {A} (k : state -> M A) st : bind get_state k st = k st st.
Proof. reflexivity. Qed.

Lemma bind_perform {A B} c (o : list entry -> result A) (k : A -> M B) st :
  bind (perform c o) k st
  = match o (trace st) with
    | Ok a =>
        k a {| BOT_USER_ID := BOT_USER_ID st;
               INDEXED_FILE_IDS := INDEXED_FILE_IDS st;
               trace := List.app (trace st) [(c, true)] |}
    | Raise e =>
        (Raise e,
         {| BOT_USER_ID := BOT_USER_ID st;
            INDEXED_FILE_IDS := INDEXED_FILE_IDS st;
            trace := List.app (trace st) [(c, false)] |})
    end.
Proof. unfold bind, perform. now destruct (o (trace st)). Qed.




(** ** The issue filing adapter *)

Section IssueAdapter.

Variable cfg : config.
Variable env : Env.

Lemma create_github_issue_unconfigured title body st :
  truthy (GITHUB_TOKEN cfg) && truthy (GITHUB_OWNER cfg)
    && truthy (GITHUB_REPO cfg) = false ->
  create_github_issue cfg env title body st = (Raise missing_configuration, st).
Proof. intros H. unfold create_github_issue. now rewrite H. Qed.

(** With the three settings in place the request goes out: one POST to the
    repository's issue endpoint, carrying the title and the body. *)
Lemma create_github_issue_configured title body st tok owner repo :
  GITHUB_TOKEN cfg = Some tok -> GITHUB_OWNER cfg = Some owner ->
  GITHUB_REPO cfg = Some repo -> tok <> "" -> owner <> "" -> repo <> "" ->
  exists ok,
    trace (snd (create_github_issue cfg env title body st))
    = List.app (trace st)
        [(requests_post
            ("https://api.github.com/repos/" ++ owner ++ "/" ++ repo ++ "/issues")
            [("Accept", "application/vnd.github+json");
             ("Authorization", "Bearer " ++ tok);
             ("X-GitHub-Api-Version", "2022-11-28")]
            title body 30, ok)].
Proof.
  intros Ht Ho Hr Nt No Nr. unfold create_github_issue.
  rewrite Ht, Ho, Hr. simpl.
  apply String.eqb_neq in Nt, No, Nr. rewrite Nt, No, Nr. simpl.
  unfold http_post. unfold_m. simpl.
  destruct (on_requests_post env (trace st) _ title body) as [r|e]; simpl.
  - exists true. unfold raise_for_status. unfold_m.
    repeat match goal with |- context [if ?b then _ else _] => destruct b end;
      simpl; try reflexivity; now destruct (json r).
  - now exists false.
Qed.

(** C5.  When one of the three tracker settings (credential, owner,
    repository name) is absent, [create_github_issue] raises the "missing
    configuration" error and leaves the state, hence the trace of calls,
    as it found it: no request has gone out.  Conversely, whenever the
    adapter has made any call at all, the three settings were present. *)
Theorem create_github_issue_fails_fast title body st :
  (GITHUB_TOKEN cfg = None \/ GITHUB_OWNER cfg = None \/ GITHUB_REPO cfg = None ->
   create_github_issue cfg env title body st = (Raise missing_configuration, st))
  /\ (trace (snd (create_github_issue cfg env title body st)) <> trace st ->
      exists tok owner repo,
        GITHUB_TOKEN cfg = Some tok /\ GITHUB_OWNER cfg = Some owner
        /\ GITHUB_REPO cfg = Some repo).
Proof.
  split.
  - intros H. apply create_github_issue_unconfigured.
    destruct H as [H|[H|H]]; rewrite (truthy_None_false _ H);
      rewrite ?andb_false_r; reflexivity.
  - intros H.
    destruct (truthy (GITHUB_TOKEN cfg) && truthy (GITHUB_OWNER cfg)
              && truthy (GITHUB_REPO cfg)) eqn:E.
    + apply andb_true_iff in E as [E Hr]. apply andb_true_iff in E as [Ht Ho].
      apply truthy_Some in Ht as (tok & Ht & _).
      apply truthy_Some in Ho as (owner & Ho & _).
      apply truthy_Some in Hr as (repo & Hr & _).
      exists tok, owner, repo. auto.
    + rewrite (create_github_issue_unconfigured _ _ _ E) in H. now elim H.
Qed.

End IssueAdapter.

Lemma create_github_issue_fails_fast_witness :
  create_github_issue Scenario.cfg_no_repo Scenario.calm "Title" "Body" initial_state
  = (Raise missing_configuration, initial_state)
  /\ exists tok owner repo,
       GITHUB_TOKEN Scenario.cfg0 = Some tok /\ GITHUB_OWNER Scenario.cfg0 = Some owner
       /\ GITHUB_REPO Scenario.cfg0 = Some repo.
Proof.
  split.
  - apply (proj1 (create_github_issue_fails_fast Scenario.cfg_no_repo Scenario.calm
                    "Title" "Body" initial_state)).
    right; right; reflexivity.
  - apply (proj2 (create_github_issue_fails_fast Scenario.cfg0 Scenario.calm
                    "Title" "Body" initial_state)).
    vm_compute. discriminate.
Defined.

(** ** The file retrieval adapter *)

Section Retrieval.

Variable cfg : config.
Variable env : Env.

Lemma redirect_status_In sc :
  redirect_status sc = true <-> In sc [301; 302; 303; 307; 308]%Z.
Proof.
  unfold redirect_status. rewrite existsb_exists. split.
  - intros (x & Hx & E). apply Z.eqb_eq in E. now subst x.
  - intros H. exists sc. split; [assumption|apply Z.eqb_refl].
Qed.

(** The checks of lines 34-41 call nobody: the calls of a download are the
    calls of [fetch]. *)
Lemma download_trace target st :
  trace (snd (download_slack_file cfg env target st))
  = trace (snd (fetch cfg env target st)).
Proof.
  unfold download_slack_file, bind.
  destruct (fetch cfg env target st) as [[r|e] st']; [|reflexivity].
  unfold raise_for_status, raise, ret.
  repeat match goal with |- context [if ?b then _ else _] => destruct b end;
    reflexivity.
Qed.

Lemma fetch_trace target st :
  trace (snd (fetch cfg env target st))
  = List.app (trace st)
      ((requests_get target (HEADERS cfg) false 60,
        is_ok (on_requests_get env (trace st) target false))
       :: match on_requests_get env (trace st) target false with
          | Ok r =>
              if redirect_status (status_code r) then
                match header_get "Location" (headers r) with
                | Some loc =>
                    [(requests_get loc (HEADERS cfg) true 60,
                      is_ok (on_requests_get env
                               (List.app (trace st)
                                  [(requests_get target (HEADERS cfg) false 60, true)])
                               loc true))]
                | None => []
                end
              else []
          | Raise _ => []
          end).
Proof.
  unfold fetch, http_get. unfold_m. simpl.
  destruct (on_requests_get env (trace st) target false) as [r|e]; simpl;
    [|reflexivity].
  destruct (redirect_status (status_code r)); [|reflexivity].
  destruct (header_get "Location" (headers r)) as [loc|]; [|reflexivity].
  simpl. now rewrite <- app_assoc.
Qed.

(** C6.  The calls of one download are: first a GET of the given URL with
    redirects disabled; then, when that request returned a response whose
    status is 301, 302, 303, 307 or 308 and which has a Location header,
    exactly one more GET, of that location, with the same headers and
    timeout; and nothing more in every other case (the first request
    raised, the status is not a redirect, or there is no Location header),
    in particular nothing more after a status 200. *)
Theorem download_slack_file_requests target st :
  exists follow_ups,
    trace (snd (download_slack_file cfg env target st))
    = List.app (trace st)
        ((requests_get target (HEADERS cfg) false 60,
          is_ok (on_requests_get env (trace st) target false)) :: follow_ups)
    /\ (forall r loc,
          on_requests_get env (trace st) target false = Ok r ->
          In (status_code r) [301; 302; 303; 307; 308]%Z ->
          header_get "Location" (headers r) = Some loc ->
          exists ok, follow_ups = [(requests_get loc (HEADERS cfg) true 60, ok)])
    /\ (forall r,
          on_requests_get env (trace st) target false = Ok r ->
          ~ In (status_code r) [301; 302; 303; 307; 308]%Z
          \/ header_get "Location" (headers r) = None ->
          follow_ups = [])
    /\ (forall e,
          on_requests_get env (trace st) target false = Raise e ->
          follow_ups = [])
    /\ (forall r,
          on_requests_get env (trace st) target false = Ok r ->
          status_code r = 200%Z -> follow_ups = []).
Proof.
  eexists. split; [rewrite download_trace; apply fetch_trace|].
  repeat split.
  - intros r loc -> Hsc Hloc. apply redirect_status_In in Hsc.
    rewrite Hsc, Hloc. eauto.
  - intros r -> [Hsc|Hloc].
    + destruct (redirect_status (status_code r)) eqn:E; [|reflexivity].
      apply redirect_status_In in E. contradiction.
    + rewrite Hloc. now destruct (redirect_status (status_code r)).
  - now intros e ->.
  - now intros r -> ->.
Qed.

(** C7.  When the response a download ends with has a success status
    (2xx), the adapter looks at its Content-Type: if the lower-cased header
    contains [text/html] it raises the "Got HTML" error and returns no
    bytes; otherwise (also without such a header) it returns the body. *)
Theorem download_slack_file_refuses_html target st r st' :
  fetch cfg env target st = (Ok r, st') ->
  (200 <= status_code r < 300)%Z ->
  let ct := lower (or_str (header_get "Content-Type" (headers r)) "") in
  (contains "text/html" ct = true ->
   download_slack_file cfg env target st = (Raise (html_error r), st'))
  /\ (contains "text/html" ct = false ->
      download_slack_file cfg env target st = (Ok (content r), st')).
Proof.
  intros Hf Hsc ct. unfold download_slack_file, bind. rewrite Hf.
  unfold raise_for_status.
  replace ((400 <=? status_code r)%Z) with false by (symmetry; apply Z.leb_gt; lia).
  replace ((500 <=? status_code r)%Z) with false by (symmetry; apply Z.leb_gt; lia).
  simpl. fold ct. split; intros ->; reflexivity.
Qed.

End Retrieval.

Lemma download_slack_file_requests_witness :
  exists ok,
    trace (snd (download_slack_file Scenario.cfg0 Scenario.redirecting
                  "https://acme.slack.com/F1" initial_state))
    = [(requests_get "https://acme.slack.com/F1" (HEADERS Scenario.cfg0) false 60, true);
       (requests_get "https://files.slack.com/f" (HEADERS Scenario.cfg0) true 60, ok)].
Proof.
  destruct (download_slack_file_requests Scenario.cfg0 Scenario.redirecting
              "https://acme.slack.com/F1" initial_state)
    as (follow_ups & Htrace & Hredirect & _).
  destruct (Hredirect Scenario.redirect_response "https://files.slack.com/f")
    as [ok Hok].
  - reflexivity.
  - simpl. auto.
  - reflexivity.
  - exists ok. rewrite Htrace, Hok. reflexivity.
Defined.

Lemma download_slack_file_refuses_html_witness :
  download_slack_file Scenario.cfg0 Scenario.logged_out
    "https://acme.slack.com/F1" initial_state
  = (Raise (html_error Scenario.login_page),
     snd (fetch Scenario.cfg0 Scenario.logged_out "https://acme.slack.com/F1"
            initial_state))
  /\ download_slack_file Scenario.cfg0 Scenario.calm
       "https://acme.slack.com/F1" initial_state
     = (Ok (content Scenario.file_response),
        snd (fetch Scenario.cfg0 Scenario.calm "https://acme.slack.com/F1"
               initial_state)).
Proof.
  split.
  - apply (download_slack_file_refuses_html Scenario.cfg0 Scenario.logged_out
             "https://acme.slack.com/F1" initial_state Scenario.login_page).
    + reflexivity.
    + simpl. lia.
    + reflexivity.
  - apply (download_slack_file_refuses_html Scenario.cfg0 Scenario.calm
             "https://acme.slack.com/F1" initial_state Scenario.file_response).
    + reflexivity.
    + simpl. lia.
    + reflexivity.
Defined.

(** ** [on_message] is [handle] after [classify] *)

Section Dispatch.

Variable cfg : config.
Variable env : Env.

Lemma file_share_truthy o : opt_eqb o "file_share" = true -> truthy o = true.
Proof.
  destruct o as [s|]; simpl; [|discriminate].
  intros H. apply String.eqb_eq in H. now subst s.
Qed.

Lemma file_share_no_query ev :
  opt_eqb (ev_subtype ev) "file_share" = true -> query_condition ev = false.
Proof.
  intros H. unfold query_condition. rewrite (file_share_truthy _ H).
  now rewrite andb_false_r.
Qed.

Lemma on_message_dispatch ev st :
  on_message cfg env ev st
  = (if bot_origin ev then ret tt
     else let! bot := ensure_bot_user_id env in
          handle cfg env ev bot (classify bot ev)) st.
Proof.
  unfold on_message, classify. destruct (bot_origin ev); [reflexivity|].
  unfold bind at 1 3. destruct (ensure_bot_user_id env st) as [[bot|e] st1];
    [|reflexivity].
  destruct (delete_condition bot (raw_text_of ev)); [reflexivity|].
  destruct (issue_condition bot (raw_text_of ev)); [reflexivity|].
  destruct (opt_eqb (ev_subtype ev) "file_share") eqn:Hfs.
  - rewrite (file_share_no_query _ Hfs).
    destruct (ev_files ev) as [|f rest] eqn:Hfiles; [reflexivity|].
    simpl handle. rewrite Hfiles. unfold bind.
    destruct (upload_loop cfg env ev (f :: rest) st1) as [[[]|e] st2]; reflexivity.
  - unfold bind, ret. destruct (query_condition ev); [|reflexivity].
    simpl. destruct (String.eqb (raw_text_of ev) "") eqn:E; [|reflexivity].
    simpl. unfold query_block. fold (raw_text_of ev). now rewrite E.
Qed.

End Dispatch.

(** ** Filing an issue: title, body and the usage reply *)

Section IssueCommand.

Variable cfg : config.
Variable env : Env.






End IssueCommand.



(** ** The command tests of lines 99-108 *)

Section IssuePrefix.






End IssuePrefix.



(** C3 on a realistic input: the bot [U012AB3CD] receives
    ["<@U012AB3CD> issue Fix login | crash"].  The test of line 102 compares
    the lower-cased text with the mention in its original case, so the
    message is not a FileIssue: it is answered as a query. *)
Theorem mention_issue_is_answered_as_query :
  issue_condition "U012AB3CD" "<@U012AB3CD> issue Fix login | crash" = false
  /\ classify "U012AB3CD" (Scenario.message "<@U012AB3CD> issue Fix login | crash")
     = Query "<@U012AB3CD> issue Fix login | crash"
  /\ Scenario.calls
       (snd (on_message Scenario.cfg0 Scenario.calm
               (Scenario.message "<@U012AB3CD> issue Fix login | crash")
               initial_state))
     = [auth_test; print "U012AB3CD";
        answer_query "<@U012AB3CD> issue Fix login | crash" (Some "C1") 4;
        chat_postMessage (Some "C1") (Some "17.01") "42"].
Proof. repeat split; reflexivity. Qed.

(** ** Failures inside the handlers *)

Section Failures.

Variable cfg : config.
Variable env : Env.

(** Lines 92-97 have no [try]: a failure of [delete_all_embeddings] leaves
    [on_message] as it is, and nothing is posted. *)
Lemma delete_block_raises ev st e :
  on_delete_all_embeddings env (trace st) = Raise e ->
  delete_block env ev st
  = (Raise e,
     {| BOT_USER_ID := BOT_USER_ID st;
        INDEXED_FILE_IDS := INDEXED_FILE_IDS st;
        trace := List.app (trace st) [(delete_all_embeddings, false)] |}).
Proof. intros H. unfold delete_block. unfold_m. now rewrite H. Qed.

(** By contrast, the [try] of the query block hands every failure of
    [answer_query] to its handler, which logs it and posts one reply. *)
Lemma query_block_catches ev st e :
  raw_text_of ev <> "" ->
  on_answer_query env (trace st) (raw_text_of ev) (ev_channel ev) 4 = Raise e ->
  exists ok,
    trace (snd (query_block env ev st))
    = List.app (trace st)
        [(answer_query (raw_text_of ev) (ev_channel ev) 4, false);
         (logger_exception "Failed answering query", true);
         (chat_postMessage (ev_channel ev) (py_or (ev_thread_ts ev) (ev_ts ev))
            ("❌ Error answering: " ++ str_exn e), ok)].
Proof.
  intros Hn H. unfold query_block. fold (raw_text_of ev).
  apply String.eqb_neq in Hn. rewrite Hn.
  unfold log_exception, post. unfold_m. rewrite H. simpl.
  eexists. rewrite <- !app_assoc. reflexivity.
Qed.

(** Once the upload loop has reached the [try] statement for one file
    reference it leaves through the [return] of line 203: the references
    after it are not looked at. *)
Lemma upload_loop_stops_after_ingest ev f rest st file_id fobj name target :
  f_id f = Some file_id -> file_id <> "" ->
  file_id ∉ INDEXED_FILE_IDS st ->
  on_files_info env (trace st) file_id = Ok fobj ->
  py_or (fo_url_private_download fobj) (fo_url_private fobj) = Some target ->
  target <> "" ->
  name = or_str (py_or (fo_name fobj) (fo_title fobj)) (file_id ++ ".bin") ->
  lower (path_suffix name) ∈ ALLOWED_EXTENSIONS ->
  upload_loop cfg env ev (f :: rest) st
  = (let! _ := perform (files_info file_id)
                 (fun h => on_files_info env h file_id) in
     ingest cfg env ev file_id fobj target name ;; ret true) st.
Proof.
  intros Hid Hne Hnew Hinfo Hurl Hne' -> Hext.
  cbn [upload_loop]. rewrite Hid. change (fmt (Some file_id)) with file_id.
  cbn [truthy]. apply String.eqb_neq in Hne, Hne'. rewrite Hne. cbn [negb].
  unfold bind, get_state, perform.
  rewrite bool_decide_eq_false_2 by assumption.
  rewrite Hinfo. cbv beta iota zeta. rewrite Hurl.
  change (fmt (Some target)) with target. cbn [truthy]. rewrite Hne'. cbn [negb].
  rewrite bool_decide_eq_true_2 by assumption. reflexivity.
Qed.

End Failures.

(** C1 on an input the Delete path cannot handle: the bot [U012AB3CD] is
    asked ["<@U012AB3CD> delete"] while the knowledge base is unavailable.
    The exception of [delete_all_embeddings] leaves [on_message], and no
    reply is posted. *)
Theorem delete_failure_escapes :
  classify "U012AB3CD" (Scenario.message "<@U012AB3CD> delete") = Delete
  /\ fst (on_message Scenario.cfg0 Scenario.stuck_store
            (Scenario.message "<@U012AB3CD> delete") initial_state)
     = Raise (Exception "store unavailable")
  /\ trace (snd (on_message Scenario.cfg0 Scenario.stuck_store
                   (Scenario.message "<@U012AB3CD> delete") initial_state))
     = [(auth_test, true); (print "U012AB3CD", true);
        (delete_all_embeddings, false)].
Proof. repeat split; reflexivity. Qed.

(** C2 on a share of two files: [F1] and [F2] are both unseen PDFs and the
    download of [F1] fails.  The failure is caught and reported, and then
    the handler returns: [F2] is never looked up. *)
Theorem upload_stops_at_first_failure :
  fst (on_message Scenario.cfg0 Scenario.offline
         (Scenario.file_share ["F1"; "F2"]) initial_state) = Ok tt
  /\ Scenario.calls
       (snd (on_message Scenario.cfg0 Scenario.offline
               (Scenario.file_share ["F1"; "F2"]) initial_state))
     = [auth_test; print "U012AB3CD"; files_info "F1";
        requests_get "https://acme.slack.com/F1" (HEADERS Scenario.cfg0) false 60;
        logger_exception "Failed processing uploaded file";
        chat_postMessage (Some "C1") (Some "17.02")
          "❌ Failed to process `F1.pdf`: Connection refused"].
Proof. split; reflexivity. Qed.

(** ** Effects on the indexed set *)

Section Effects.

Context {A B : Type}.

Lemma indexings_app l1 l2 : indexings (List.app l1 l2) = List.app (indexings l1) (indexings l2).
Proof. apply omap_app. Qed.

Lemma indexings_cons e l :
  indexings (e :: l)
  = match indexing e with
    | Some p => p :: indexings l
    | None => indexings l
    end.
Proof. reflexivity. Qed.

Lemma effect_ret (a : A) : effect unchanged (ret a).
Proof. intros st. exists []. simpl. rewrite app_nil_r. now split. Qed.

Lemma effect_raise e : effect unchanged (@raise A e).
Proof. intros st. exists []. simpl. rewrite app_nil_r. now split. Qed.

Lemma effect_lift (r : result A) : effect unchanged (lift r).
Proof. intros st. exists []. simpl. rewrite app_nil_r. now split. Qed.

Lemma effect_perform c (o : list entry -> result A) :
  (forall ok, indexing (c, ok) = None) -> effect unchanged (perform c o).
Proof.
  intros H st. exists [(c, is_ok (o (trace st)))]. split; [reflexivity|].
  split; [|reflexivity]. now rewrite indexings_cons, H.
Qed.

Lemma effect_weaken R1 R2 (m : M A) :
  (forall S l S', R1 S l S' -> R2 S l S') -> effect R1 m -> effect R2 m.
Proof. intros H Hm st. destruct (Hm st) as (new & Ht & HR). eauto. Qed.

(** A prefix that is [unchanged] does not alter the effect of what follows. *)
Lemma effect_bind_l R (m : M A) (k : A -> M B) :
  (forall S, R S [] S) ->
  effect unchanged m -> (forall a, effect R (k a)) -> effect R (bind m k).
Proof.
  intros Hrefl Hm Hk st. unfold bind.
  destruct (Hm st) as (new & Ht & Hl & HS).
  destruct (m st) as [[a|e] st1]; simpl in *.
  - destruct (Hk a st1) as (new' & Ht' & HR). exists (List.app new new').
    rewrite Ht', Ht, app_assoc. split; [reflexivity|].
    rewrite indexings_app, Hl, <- HS. exact HR.
  - exists new. split; [assumption|]. rewrite Hl, HS. apply Hrefl.
Qed.

(** Nor does an [unchanged] continuation. *)
Lemma effect_bind_r R (m : M A) (k : A -> M B) :
  effect R m -> (forall a, effect unchanged (k a)) -> effect R (bind m k).
Proof.
  intros Hm Hk st. unfold bind.
  destruct (Hm st) as (new & Ht & HR).
  destruct (m st) as [[a|e] st1]; simpl in *.
  - destruct (Hk a st1) as (new' & Ht' & Hl & HS). exists (List.app new new').
    rewrite Ht', Ht, app_assoc. split; [reflexivity|].
    rewrite indexings_app, Hl, app_nil_r, HS. exact HR.
  - exists new. now split.
Qed.

Lemma effect_try_r R (body : M A) (handler : exn -> M A) :
  effect R body -> (forall e, effect unchanged (handler e)) ->
  effect R (try_except body handler).
Proof.
  intros Hm Hk st. unfold try_except.
  destruct (Hm st) as (new & Ht & HR).
  destruct (body st) as [[a|e] st1]; simpl in *.
  - exists new. now split.
  - destruct (Hk e st1) as (new' & Ht' & Hl & HS). exists (List.app new new').
    rewrite Ht', Ht, app_assoc. split; [reflexivity|].
    rewrite indexings_app, Hl, app_nil_r, HS. exact HR.
Qed.

End Effects.

Lemma unchanged_refl S : unchanged S [] S.
Proof. now split. Qed.

Lemma one_event_refl S : one_event S [] S.
Proof. left. apply unchanged_refl. Qed.

Lemma effect_get_state : effect unchanged get_state.
Proof. intros st. exists []. simpl. rewrite app_nil_r. now split. Qed.

Lemma effect_set_BOT_USER_ID uid : effect unchanged (set_BOT_USER_ID uid).
Proof. intros st. exists []. simpl. rewrite app_nil_r. now split. Qed.

(** Composition of [unchanged] computations, by the shape of the term. *)
Ltac quiet :=
  repeat first
    [ apply effect_ret | apply effect_raise | apply effect_lift
    | apply effect_get_state | apply effect_set_BOT_USER_ID
    | apply effect_perform; intros ?; reflexivity
    | apply effect_bind_l; [exact unchanged_refl| |intros ?]
    | apply effect_try_r; [|intros ?]
    | match goal with
      | |- effect _ (if ?b then _ else _) => destruct b
      | |- effect _ (match ?x with _ => _ end) => destruct x
      end ].

Section IndexedSet.

Variable cfg : config.
Variable env : Env.

Lemma ensure_bot_user_id_unchanged : effect unchanged (ensure_bot_user_id env).
Proof. unfold ensure_bot_user_id. quiet. Qed.

Lemma post_unchanged ch ts text : effect unchanged (post env ch ts text).
Proof. unfold post. quiet. Qed.

Lemma log_exception_unchanged msg : effect unchanged (log_exception msg).
Proof. unfold log_exception. quiet. Qed.

Lemma getitem_unchanged key v : effect unchanged (getitem key v).
Proof. unfold getitem. quiet. Qed.

Lemma raise_for_status_unchanged r : effect unchanged (raise_for_status r).
Proof. unfold raise_for_status. quiet. Qed.

Lemma download_slack_file_unchanged target :
  effect unchanged (download_slack_file cfg env target).
Proof.
  unfold download_slack_file, fetch, http_get.
  pose proof raise_for_status_unchanged. quiet; auto.
Qed.

Lemma create_github_issue_unchanged title body :
  effect unchanged (create_github_issue cfg env title body).
Proof.
  unfold create_github_issue, http_post.
  pose proof raise_for_status_unchanged. quiet; auto.
Qed.

Lemma delete_block_unchanged ev : effect unchanged (delete_block env ev).
Proof.
  unfold delete_block.
  pose proof getitem_unchanged. pose proof post_unchanged. quiet; auto.
Qed.

Lemma issue_block_unchanged ev bot raw : effect unchanged (issue_block cfg env ev bot raw).
Proof.
  unfold issue_block.
  pose proof getitem_unchanged. pose proof post_unchanged.
  pose proof log_exception_unchanged. pose proof create_github_issue_unchanged.
  quiet; auto.
Qed.

Lemma query_block_unchanged ev : effect unchanged (query_block env ev).
Proof.
  unfold query_block.
  pose proof post_unchanged. pose proof log_exception_unchanged. quiet; auto.
Qed.

(** Lines 187-195: the submission, the insertion that follows its success,
    and the reply. *)
Lemma submit_one_attempt file_id data fobj user_name channel thread_ts text :
  fo_id fobj = Some file_id ->
  effect (one_attempt file_id)
    (let! ids := perform (index_slack_file_bytes data fobj user_name channel)
                   (fun h => on_index_slack_file_bytes env h data fobj user_name channel) in
     add_INDEXED_FILE_IDS file_id ;;
     post env channel thread_ts (text ids)).
Proof.
  intros Hid st. unfold post, bind, perform, add_INDEXED_FILE_IDS.
  destruct (on_index_slack_file_bytes env (trace st) data fobj user_name channel)
    as [ids|e]; cbn [is_ok fst snd trace INDEXED_FILE_IDS].
  - eexists. split; [rewrite <- app_assoc; reflexivity|].
    right; right. rewrite indexings_app, !indexings_cons. cbn [indexing].
    rewrite Hid. now split.
  - eexists. split; [reflexivity|].
    right; left. rewrite !indexings_cons. cbn [indexing]. rewrite Hid. now split.
Qed.

Lemma one_attempt_refl file_id S : one_attempt file_id S [] S.
Proof. left. apply unchanged_refl. Qed.

Lemma ingest_one_attempt ev file_id fobj target name :
  fo_id fobj = Some file_id ->
  effect (one_attempt file_id) (ingest cfg env ev file_id fobj target name).
Proof.
  intros Hid. unfold ingest. apply effect_try_r.
  - apply effect_bind_l;
      [apply one_attempt_refl|apply download_slack_file_unchanged|intros data].
    apply effect_bind_l; [apply one_attempt_refl|quiet|intros _].
    apply effect_bind_l; [apply one_attempt_refl|apply getitem_unchanged|intros user_id].
    apply effect_bind_l; [apply one_attempt_refl|quiet|intros result].
    exact (submit_one_attempt file_id data fobj _ (ev_channel ev) _
             (fun ids => "✅ Saved `" ++ name ++ "` and indexed "
                           ++ str_nat (length ids) ++ " chunks.") Hid).
  - intros e. pose proof post_unchanged. pose proof log_exception_unchanged.
    quiet; auto.
Qed.

Hypothesis faithful : files_info_faithful env.

Lemma upload_loop_one_event ev files : effect one_event (upload_loop cfg env ev files).
Proof.
  induction files as [|f rest IH]; [apply (effect_weaken unchanged); [now left|quiet]|].
  intros st. cbn [upload_loop].
  destruct (negb (truthy (f_id f))); [apply IH|].
  rewrite bind_get_state.
  destruct (bool_decide (fmt (f_id f) ∈ INDEXED_FILE_IDS st)) eqn:Hin; [apply IH|].
  apply bool_decide_eq_false in Hin.
  rewrite bind_perform.
  destruct (on_files_info env (trace st) (fmt (f_id f))) as [fobj|e] eqn:Hinfo.
  2:{ eexists. split; [reflexivity|]. left. now split. }
  set (st1 := {| BOT_USER_ID := BOT_USER_ID st;
                 INDEXED_FILE_IDS := INDEXED_FILE_IDS st;
                 trace := List.app (trace st) [(files_info (fmt (f_id f)), true)] |}).
  match goal with
  | |- exists new, trace (snd ?r) = _ /\ one_event _ _ (INDEXED_FILE_IDS (snd ?r)) =>
      assert (Hk : exists new1,
                 trace (snd r) = List.app (trace st1) new1
                 /\ one_event (INDEXED_FILE_IDS st1) (indexings new1)
                      (INDEXED_FILE_IDS (snd r)))
  end.
  { destruct (negb (truthy _)).
    { apply (effect_bind_l one_event);
        [apply one_event_refl|apply post_unchanged|intros _; apply IH]. }
    destruct (negb (bool_decide _)).
    { apply (effect_bind_l one_event);
        [apply one_event_refl|apply post_unchanged|intros _; apply IH]. }
    assert (Hing : effect (one_attempt (fmt (f_id f)))
                     (ingest cfg env ev (fmt (f_id f)) fobj
                        (fmt (py_or (fo_url_private_download fobj) (fo_url_private fobj)))
                        (or_str (py_or (fo_name fobj) (fo_title fobj))
                           (fmt (f_id f) ++ ".bin")) ;; ret true)).
    { apply effect_bind_r; [|intros _; apply effect_ret].
      apply ingest_one_attempt. exact (faithful _ _ _ Hinfo). }
    destruct (Hing st1) as (new1 & Ht & HR). exists new1. split; [exact Ht|].
    right. exists (fmt (f_id f)). now split. }
  destruct Hk as (new1 & Ht & HR).
  exists ((files_info (fmt (f_id f)), true) :: new1). split.
  - rewrite Ht. subst st1. cbn [trace]. now rewrite <- app_assoc.
  - rewrite indexings_cons. exact HR.
Qed.

Lemma on_message_one_event ev : effect one_event (on_message cfg env ev).
Proof.
  unfold on_message.
  destruct (bot_origin ev); [apply (effect_weaken unchanged); [now left|quiet]|].
  apply effect_bind_l;
    [apply one_event_refl|apply ensure_bot_user_id_unchanged|intros bot].
  destruct (delete_condition bot (raw_text_of ev)).
  { apply (effect_weaken unchanged); [now left|apply delete_block_unchanged]. }
  destruct (issue_condition bot (raw_text_of ev)).
  { apply (effect_weaken unchanged); [now left|apply issue_block_unchanged]. }
  apply effect_bind_r.
  - destruct (opt_eqb (ev_subtype ev) "file_share");
      [apply upload_loop_one_event|].
    apply (effect_weaken unchanged); [now left|quiet].
  - intros returned. pose proof query_block_unchanged. quiet; auto.
Qed.









End IndexedSet.

Lemma calm_files_info_faithful : files_info_faithful Scenario.calm.
Proof. intros h file_id fobj H. injection H as <-. reflexivity. Qed.



(** ** Which collaborators a decision reaches *)

Section Only.

Context {A B : Type}.
Variable P : call -> Prop.

Lemma only_ret (a : A) : only P (ret a).
Proof.
  intros st. split; [reflexivity|]. exists []. simpl. now rewrite app_nil_r.
Qed.

Lemma only_raise e : only P (@raise A e).
Proof.
  intros st. split; [reflexivity|]. exists []. simpl. now rewrite app_nil_r.
Qed.

Lemma only_lift (r : result A) : only P (lift r).
Proof.
  intros st. split; [reflexivity|]. exists []. simpl. now rewrite app_nil_r.
Qed.

Lemma only_perform c (o : list entry -> result A) : P c -> only P (perform c o).
Proof.
  intros H st. split; [reflexivity|].
  exists [(c, is_ok (o (trace st)))]. split; [reflexivity|]. now constructor.
Qed.

Lemma only_bind (m : M A) (k : A -> M B) :
  only P m -> (forall a, only P (k a)) -> only P (bind m k).
Proof.
  intros Hm Hk st. unfold bind.
  destruct (Hm st) as (Hb & new & Ht & Hall).
  destruct (m st) as [[a|e] st1]; simpl in *.
  - destruct (Hk a st1) as (Hb' & new' & Ht' & Hall').
    split; [congruence|]. exists (List.app new new').
    rewrite Ht', Ht, app_assoc. split; [reflexivity|]. now apply Forall_app.
  - split; [assumption|]. now exists new.
Qed.

(** When the first step is known to return [a], only [k a] matters. *)
Lemma only_bind_ret (a : A) (k : A -> M B) : only P (k a) -> only P (bind (ret a) k).
Proof. intros H st. exact (H st). Qed.

Lemma only_bind_raise e (k : A -> M B) : only P (bind (raise e) k).
Proof.
  intros st. split; [reflexivity|]. exists []. simpl. now rewrite app_nil_r.
Qed.

Lemma only_try (body : M A) (handler : exn -> M A) :
  only P body -> (forall e, only P (handler e)) -> only P (try_except body handler).
Proof.
  intros Hm Hk st. unfold try_except.
  destruct (Hm st) as (Hb & new & Ht & Hall).
  destruct (body st) as [[a|e] st1]; simpl in *.
  - split; [assumption|]. now exists new.
  - destruct (Hk e st1) as (Hb' & new' & Ht' & Hall').
    split; [congruence|]. exists (List.app new new').
    rewrite Ht', Ht, app_assoc. split; [reflexivity|]. now apply Forall_app.
Qed.

End Only.

Lemma only_get_state P : only P get_state.
Proof.
  intros st. split; [reflexivity|]. exists []. simpl. now rewrite app_nil_r.
Qed.

Lemma only_add_INDEXED_FILE_IDS P file_id : only P (add_INDEXED_FILE_IDS file_id).
Proof.
  intros st. split; [reflexivity|]. exists []. simpl. now rewrite app_nil_r.
Qed.

(** Composition of [only], by the shape of the term; a call is accepted when
    [P] holds of it by computation. *)
Ltac only_calls :=
  repeat first
    [ assumption
    | match goal with H : context [only] |- only _ _ => apply H end
    | apply only_ret | apply only_raise | apply only_lift
    | apply only_get_state | apply only_add_INDEXED_FILE_IDS
    | apply only_perform; solve [simpl; auto]
    | apply only_bind; [|intros ?]
    | apply only_try; [|intros ?]
    | match goal with
      | |- only _ (if ?b then _ else _) => destruct b
      | |- only _ (match ?x with _ => _ end) => destruct x
      end ].

Section Frame.

Variable cfg : config.
Variable env : Env.

Lemma post_only P ch ts text :
  P (chat_postMessage ch ts text) -> only P (post env ch ts text).
Proof. intros H. unfold post. now apply only_perform. Qed.

Lemma raise_for_status_only P r : only P (raise_for_status r).
Proof. unfold raise_for_status. only_calls. Qed.

Lemma delete_block_only ev : only (permitted ev Delete) (delete_block env ev).
Proof.
  unfold delete_block. apply only_bind; [only_calls|intros _].
  destruct (ev_channel ev) as [ch|] eqn:Hch; cbn [getitem].
  - apply only_bind_ret, post_only. simpl. now rewrite Hch.
  - apply only_bind_raise.
Qed.

Lemma create_github_issue_only ev title body body' :
  (String.eqb body "" = false -> body' = body) ->
  only (permitted ev (FileIssue title body)) (create_github_issue cfg env title body').
Proof.
  intros H. unfold create_github_issue, http_post.
  pose proof (raise_for_status_only (permitted ev (FileIssue title body))).
  only_calls; auto.
Qed.

Lemma issue_block_only ev bot raw :
  only (permitted ev (FileIssue (fst (title_body (issue_payload bot raw)))
                        (snd (title_body (issue_payload bot raw)))))
    (issue_block cfg env ev bot raw).
Proof.
  unfold issue_block.
  destruct (title_body (issue_payload bot raw)) as [title body]. cbn [fst snd].
  destruct (String.eqb title ""); [apply post_only; now split|].
  assert (Hk : forall body',
             (String.eqb body "" = false -> body' = body) ->
             only (permitted ev (FileIssue title body))
               (try_except
                  (let! issue := create_github_issue cfg env title body' in
                   post env (ev_channel ev) (py_or (ev_thread_ts ev) (ev_ts ev))
                     ("✅ Created GitHub issue #" ++ str_Z (fst issue) ++ ": "
                        ++ snd issue))
                  (fun e =>
                     log_exception "Failed creating GitHub issue" ;;
                     post env (ev_channel ev) (py_or (ev_thread_ts ev) (ev_ts ev))
                       ("❌ Failed to create issue: " ++ str_exn e)))).
  { intros body' Hb. apply only_try; [|intros e].
    - apply only_bind; [now apply create_github_issue_only|intros issue].
      apply post_only. now split.
    - apply only_bind; [unfold log_exception; only_calls|intros _].
      apply post_only. now split. }
  destruct (String.eqb body "") eqn:Hbody.
  - destruct (ev_user ev) as [user|]; cbn [getitem].
    + apply (Hk (default_body user (ev_channel ev))). discriminate.
    + apply only_bind_raise.
  - apply only_bind_ret, Hk. reflexivity.
Qed.

Lemma download_slack_file_only ev target :
  only (permitted ev FileUpload) (download_slack_file cfg env target).
Proof.
  unfold download_slack_file, fetch, http_get.
  pose proof (raise_for_status_only (permitted ev FileUpload)).
  only_calls; auto.
Qed.

Lemma ingest_only ev file_id fobj target name :
  only (permitted ev FileUpload) (ingest cfg env ev file_id fobj target name).
Proof.
  unfold ingest, getitem, log_exception.
  pose proof (download_slack_file_only ev).
  pose proof (fun text => post_only (permitted ev FileUpload) (ev_channel ev)
                            (py_or (ev_thread_ts ev) (ev_ts ev)) text
                            (conj eq_refl eq_refl)).
  only_calls; auto.
Qed.

Lemma upload_loop_only ev files :
  only (permitted ev FileUpload) (upload_loop cfg env ev files).
Proof.
  pose proof (fun text => post_only (permitted ev FileUpload) (ev_channel ev)
                            (py_or (ev_thread_ts ev) (ev_ts ev)) text
                            (conj eq_refl eq_refl)) as Hpost.
  pose proof (ingest_only ev) as Hingest.
  induction files as [|f rest IH]; cbn [upload_loop]; only_calls; auto.
Qed.

Lemma query_block_only ev :
  only (permitted ev (Query (raw_text_of ev))) (query_block env ev).
Proof.
  unfold query_block, log_exception. fold (raw_text_of ev).
  pose proof (fun text => post_only (permitted ev (Query (raw_text_of ev)))
                            (ev_channel ev) (py_or (ev_thread_ts ev) (ev_ts ev)) text
                            (conj eq_refl eq_refl)) as Hpost.
  only_calls; auto.
Qed.

(** Whatever the decision, the block run for it keeps to its collaborators. *)
Lemma handle_only ev bot :
  only (permitted ev (classify bot ev)) (handle cfg env ev bot (classify bot ev)).
Proof.
  unfold classify.
  destruct (bot_origin ev); [apply only_ret|].
  destruct (delete_condition bot (raw_text_of ev)); [apply delete_block_only|].
  destruct (issue_condition bot (raw_text_of ev)); [apply issue_block_only|].
  destruct (opt_eqb (ev_subtype ev) "file_share").
  - destruct (ev_files ev) as [|f rest] eqn:Hfiles; [apply only_ret|].
    cbn [handle]. rewrite Hfiles.
    apply only_bind; [apply upload_loop_only|intros _; apply only_ret].
  - destruct (query_condition ev && negb (String.eqb (raw_text_of ev) ""));
      [apply query_block_only|apply only_ret].
Qed.

Lemma on_message_only ev st bot st1 :
  bot_origin ev = false ->
  ensure_bot_user_id env st = (Ok bot, st1) ->
  BOT_USER_ID (snd (on_message cfg env ev st)) = BOT_USER_ID st1
  /\ exists new,
       trace (snd (on_message cfg env ev st)) = List.app (trace st1) new
       /\ Forall (fun e => permitted ev (classify bot ev) (fst e)) new.
Proof.
  intros Hb Hbot. rewrite on_message_dispatch, Hb. unfold bind. rewrite Hbot.
  apply handle_only.
Qed.

End Frame.

(** ** Further properties of [on_message] *)

Lemma permitted_not_auth_test ev d c : permitted ev d c -> c <> auth_test.
Proof. intros H ->. now destruct d. Qed.

Lemma ensure_bot_user_id_cached env st uid :
  BOT_USER_ID st = Some uid -> uid <> "" ->
  ensure_bot_user_id env st = (Ok uid, st).
Proof.
  intros H Hne. unfold ensure_bot_user_id. rewrite bind_get_state, H.
  apply String.eqb_neq in Hne. simpl. now rewrite Hne.
Qed.

Section Listener.

Variable cfg : config.
Variable env : Env.

Lemma on_message_from_bot ev st :
  bot_origin ev = true -> on_message cfg env ev st = (Ok tt, st).
Proof. intros H. unfold on_message. now rewrite H. Qed.

(** X1.  Events that come from a bot ([bot_id] set, or subtype
    [bot_message]) are dropped before anything else happens: [on_message]
    returns at once, and a run of such events leaves the state as it was,
    without a single call, not even the lookup of the bot's own id. *)
Theorem bot_events_leave_no_trace evs st :
  Forall (fun ev => bot_origin ev = true) evs ->
  run cfg env evs st = st
  /\ Forall (fun ev => on_message cfg env ev st = (Ok tt, st)) evs.
Proof.
  intros H. split.
  - induction H as [|ev evs Hev _ IH]; [reflexivity|].
    change (run cfg env (ev :: evs) st)
      with (run cfg env evs (snd (on_message cfg env ev st))).
    now rewrite (on_message_from_bot ev st Hev).
  - eapply Forall_impl; [exact H|]. intros ev Hev. now apply on_message_from_bot.
Qed.

Lemma on_message_keeps_bot_id ev st uid :
  BOT_USER_ID st = Some uid -> uid <> "" ->
  BOT_USER_ID (snd (on_message cfg env ev st)) = Some uid
  /\ exists new,
       trace (snd (on_message cfg env ev st)) = List.app (trace st) new
       /\ Forall (fun e => fst e <> auth_test) new.
Proof.
  intros H Hne. destruct (bot_origin ev) eqn:Hb.
  - unfold on_message. rewrite Hb. split; [exact H|].
    exists []. simpl. now rewrite app_nil_r.
  - destruct (on_message_only cfg env ev st uid st Hb
                (ensure_bot_user_id_cached env st uid H Hne))
      as (Hbot & new & Ht & Hall).
    split; [congruence|]. exists new. split; [exact Ht|].
    eapply Forall_impl; [exact Hall|]. intros e He.
    exact (permitted_not_auth_test _ _ _ He).
Qed.

(** X2.  The bot's id is looked up once.  As soon as [BOT_USER_ID] holds a
    non-empty id, [_cache_bot_id] does nothing, and no run of events calls
    [auth_test] again or changes the cached id. *)
Theorem bot_id_is_looked_up_once evs st uid :
  BOT_USER_ID st = Some uid -> uid <> "" ->
  _cache_bot_id env st = (Ok tt, st)
  /\ BOT_USER_ID (run cfg env evs st) = Some uid
  /\ exists new,
       trace (run cfg env evs st) = List.app (trace st) new
       /\ Forall (fun e => fst e <> auth_test) new.
Proof.
  intros H Hne. split.
  { unfold _cache_bot_id. rewrite bind_get_state, H.
    apply String.eqb_neq in Hne. simpl. now rewrite Hne. }
  revert st H. induction evs as [|ev evs IH]; intros st H.
  - split; [exact H|]. exists []. simpl. now rewrite app_nil_r.
  - destruct (on_message_keeps_bot_id ev st uid H Hne) as (Hbot & new & Ht & Hall).
    destruct (IH _ Hbot) as (Hbot' & new' & Ht' & Hall').
    change (run cfg env (ev :: evs) st)
      with (run cfg env evs (snd (on_message cfg env ev st))).
    split; [exact Hbot'|]. exists (List.app new new').
    rewrite Ht', Ht, app_assoc. split; [reflexivity|]. now apply Forall_app.
Qed.


(** X4.  The Delete block wipes first and answers afterwards.  When the
    wipe succeeds and the event has a channel, one confirmation is posted to
    that channel, outside any thread.  When the event has no channel, the
    knowledge base has been wiped all the same and the block ends in
    [KeyError('channel')] without a confirmation. *)
Theorem delete_block_outcome ev st remaining :
  on_delete_all_embeddings env (trace st) = Ok remaining ->
  (forall ch,
      ev_channel ev = Some ch ->
      trace (snd (delete_block env ev st))
      = List.app (trace st)
          [(delete_all_embeddings, true);
           (chat_postMessage (Some ch) None "✅ Deleted all embeddings.",
            is_ok (on_chat_postMessage env
                     (List.app (trace st) [(delete_all_embeddings, true)])
                     (Some ch) None "✅ Deleted all embeddings."))])
  /\ (ev_channel ev = None ->
      fst (delete_block env ev st) = Raise (Exception "'channel'")
      /\ trace (snd (delete_block env ev st))
         = List.app (trace st) [(delete_all_embeddings, true)]).
Proof.
  intros Hd. unfold delete_block. rewrite bind_perform, Hd. split.
  - intros ch ->. cbn [getitem]. unfold post, bind, ret, perform. simpl.
    now rewrite <- app_assoc.
  - intros ->. split; reflexivity.
Qed.


End Listener.

Section Handlers.

Variable cfg : config.
Variable env : Env.





(** X9.  [files_info] is called outside the [try]: when it raises for an
    unseen reference, the exception leaves the loop at once; no reply is
    posted and the references after it are not looked at. *)
Theorem files_info_failure_escapes ev f rest st file_id e :
  f_id f = Some file_id -> file_id <> "" ->
  file_id ∉ INDEXED_FILE_IDS st ->
  on_files_info env (trace st) file_id = Raise e ->
  upload_loop cfg env ev (f :: rest) st
  = (Raise e,
     {| BOT_USER_ID := BOT_USER_ID st;
        INDEXED_FILE_IDS := INDEXED_FILE_IDS st;
        trace := List.app (trace st) [(files_info file_id, false)] |}).
Proof.
  intros Hid Hne Hnew Hinfo.
  cbn [upload_loop]. rewrite Hid. change (fmt (Some file_id)) with file_id.
  cbn [truthy]. apply String.eqb_neq in Hne. rewrite Hne. cbn [negb].
  rewrite bind_get_state, bool_decide_eq_false_2 by assumption.
  now rewrite bind_perform, Hinfo.
Qed.

(** X10.  One event, at most one submission.  Whatever the event, the
    indexing collaborator is called at most once while it is processed, and
    only for a file id that was not in the set; the set keeps what it had
    and gains at most that id. *)
Theorem one_submission_per_event ev st :
  files_info_faithful env ->
  exists new,
    trace (snd (on_message cfg env ev st)) = List.app (trace st) new
    /\ (length (indexings new) <= 1)%nat
    /\ (forall file_id ok,
           In (file_id, ok) (indexings new) -> file_id ∉ INDEXED_FILE_IDS st)
    /\ INDEXED_FILE_IDS st ⊆ INDEXED_FILE_IDS (snd (on_message cfg env ev st)).
Proof.
  intros F. destruct (on_message_one_event cfg env F ev st) as (new & Ht & HR).
  exists new. split; [exact Ht|].
  assert (Hone : forall (fid : string) (ok : bool) (x : string) (ok' : bool),
             fid ∉ INDEXED_FILE_IDS st -> In (x, ok') [(fid, ok)] ->
             x ∉ INDEXED_FILE_IDS st).
  { intros fid ok x ok' Hnew [Hin|[]]. congruence. }
  destruct HR as [[Hl HS]|(fid & Hnew & [[Hl HS]|[[Hl HS]|[Hl HS]]])];
    rewrite Hl; simpl; (split; [lia|]); (split; [|rewrite HS; first [reflexivity|apply union_subseteq_r]]);
    intros x ok Hin; try contradiction; eauto.
Qed.

End Handlers.

Section Adapters.

Variable cfg : config.
Variable env : Env.

(** X11.  The status of the response a download ends with.  A 4xx or 5xx
    status raises the HTTP error of [raise_for_status] whatever the content
    type says, and no bytes are returned.  Every other status passes, a
    redirect status that was not followed (it came without a Location
    header) included: the result then depends on the content type alone. *)
Theorem download_slack_file_final_status target st r st' :
  fetch cfg env target st = (Ok r, st') ->
  ((400 <= status_code r < 600)%Z ->
   download_slack_file cfg env target st
   = (Raise (Exception
               (str_Z (status_code r)
                  ++ (if (status_code r <? 500)%Z then " Client Error: "
                      else " Server Error: ")
                  ++ reason r ++ " for url: " ++ url r)), st'))
  /\ ((status_code r < 400 \/ 600 <= status_code r)%Z ->
      download_slack_file cfg env target st
      = (if contains "text/html"
              (lower (or_str (header_get "Content-Type" (headers r)) ""))
         then Raise (html_error r) else Ok (content r), st')).
Proof.
  intros Hf. unfold download_slack_file, bind. rewrite Hf.
  unfold raise_for_status, raise, ret. split; intros Hsc.
  - destruct (Z.ltb_spec (status_code r) 500) as [Hlt|Hge].
    + replace ((400 <=? status_code r)%Z) with true by (symmetry; apply Z.leb_le; lia).
      reflexivity.
    + replace ((400 <=? status_code r)%Z) with true by (symmetry; apply Z.leb_le; lia).
      replace ((500 <=? status_code r)%Z) with true by (symmetry; apply Z.leb_le; lia).
      replace ((status_code r <? 600)%Z) with true by (symmetry; apply Z.ltb_lt; lia).
      reflexivity.
  - destruct Hsc as [Hsc|Hsc].
    + replace ((400 <=? status_code r)%Z) with false by (symmetry; apply Z.leb_gt; lia).
      replace ((500 <=? status_code r)%Z) with false by (symmetry; apply Z.leb_gt; lia).
      simpl. now destruct (contains _ _).
    + replace ((status_code r <? 500)%Z) with false by (symmetry; apply Z.ltb_ge; lia).
      replace ((status_code r <? 600)%Z) with false by (symmetry; apply Z.ltb_ge; lia).
      rewrite !andb_false_r. now destruct (contains _ _).
Qed.

(** X12.  The issue adapter once it is configured.  It makes exactly one
    request, a POST to the issue endpoint of the repository with the pinned
    headers, the title and the body, and a timeout of 30 seconds, and never
    tries again.  It gives back what came of that request: an exception of
    the request as it is, the HTTP error for a 4xx or 5xx status (even when
    the response body would parse), and otherwise the number and URL read
    from the JSON body, or the exception of reading them. *)
Theorem create_github_issue_outcome title body st tok owner repo :
  GITHUB_TOKEN cfg = Some tok -> GITHUB_OWNER cfg = Some owner ->
  GITHUB_REPO cfg = Some repo -> tok <> "" -> owner <> "" -> repo <> "" ->
  let target := "https://api.github.com/repos/" ++ owner ++ "/" ++ repo ++ "/issues" in
  (exists ok,
      trace (snd (create_github_issue cfg env title body st))
      = List.app (trace st)
          [(requests_post target
              [("Accept", "application/vnd.github+json");
               ("Authorization", "Bearer " ++ tok);
               ("X-GitHub-Api-Version", "2022-11-28")]
              title body 30, ok)])
  /\ (forall e,
      on_requests_post env (trace st) target title body = Raise e ->
      fst (create_github_issue cfg env title body st) = Raise e)
  /\ (forall r,
         on_requests_post env (trace st) target title body = Ok r ->
         ((400 <= status_code r < 600)%Z ->
          exists msg, fst (create_github_issue cfg env title body st)
                      = Raise (Exception (str_Z (status_code r) ++ msg)))
         /\ ((status_code r < 400 \/ 600 <= status_code r)%Z ->
             fst (create_github_issue cfg env title body st) = json r)).
Proof.
  intros Ht Ho Hr Nt No Nr target. subst target.
  split; [exact (create_github_issue_configured cfg env title body st tok owner repo
                   Ht Ho Hr Nt No Nr)|].
  unfold create_github_issue.
  rewrite Ht, Ho, Hr.
  change (fmt (Some owner)) with owner. change (fmt (Some repo)) with repo.
  cbn [truthy]. apply String.eqb_neq in Nt, No, Nr. rewrite Nt, No, Nr.
  cbn [negb andb]. unfold http_post. rewrite bind_perform. split.
  - intros e He. now rewrite He.
  - intros r Hr'. rewrite Hr'. unfold bind, raise_for_status, raise, ret, lift.
    split; intros Hsc.
    + destruct (Z.ltb_spec (status_code r) 500) as [Hlt|Hge].
      * replace ((400 <=? status_code r)%Z) with true by (symmetry; apply Z.leb_le; lia).
        simpl. eauto.
      * replace ((400 <=? status_code r)%Z) with true by (symmetry; apply Z.leb_le; lia).
        replace ((500 <=? status_code r)%Z) with true by (symmetry; apply Z.leb_le; lia).
        replace ((status_code r <? 600)%Z) with true by (symmetry; apply Z.ltb_lt; lia).
        simpl. eauto.
    + destruct Hsc as [Hsc|Hsc].
      * replace ((400 <=? status_code r)%Z) with false by (symmetry; apply Z.leb_gt; lia).
        replace ((500 <=? status_code r)%Z) with false by (symmetry; apply Z.leb_gt; lia).
        reflexivity.
      * replace ((status_code r <? 500)%Z) with false by (symmetry; apply Z.ltb_ge; lia).
        replace ((status_code r <? 600)%Z) with false by (symmetry; apply Z.ltb_ge; lia).
        now rewrite !andb_false_r.
Qed.


(** X14.  A failed download is reported and leaves no file behind.  When
    [download_slack_file] raises (the request failed, the status was an
    error, the payload was HTML), the [try] of the upload loop logs the
    failure and posts one reply naming the file and the exception; nothing
    is written or indexed, and the set of indexed ids is as before. *)
Theorem ingest_download_failure ev file_id fobj target name st e st1 :
  download_slack_file cfg env target st = (Raise e, st1) ->
  trace (snd (ingest cfg env ev file_id fobj target name st))
  = List.app (trace st1)
      [(logger_exception "Failed processing uploaded file", true);
       (chat_postMessage (ev_channel ev) (thread_of ev)
          ("❌ Failed to process `" ++ name ++ "`: " ++ str_exn e),
        is_ok (on_chat_postMessage env
                 (List.app (trace st1)
                    [(logger_exception "Failed processing uploaded file", true)])
                 (ev_channel ev) (thread_of ev)
                 ("❌ Failed to process `" ++ name ++ "`: " ++ str_exn e)))]
  /\ INDEXED_FILE_IDS (snd (ingest cfg env ev file_id fobj target name st))
     = INDEXED_FILE_IDS st1.
Proof.
  intros Hd. unfold ingest, try_except, bind. rewrite Hd.
  unfold log_exception, post, perform. cbn [is_ok fst snd trace INDEXED_FILE_IDS].
  split; [now rewrite <- app_assoc|reflexivity].
Qed.


End Adapters.

(** ** Recognising the Delete command *)

Section DeleteCommand.
















End DeleteCommand.

(** ** The mention form of the issue command *)

Section MentionForm.







End MentionForm.

(** ** Instances *)

Lemma bot_events_leave_no_trace_witness :
  run Scenario.cfg0 Scenario.calm
    [Cases.from_bot "issue Fix login"; Cases.from_bot "<@U012AB3CD> delete"]
    Cases.cached
  = Cases.cached.
Proof.
  assert (H : Forall (fun ev => bot_origin ev = true)
                [Cases.from_bot "issue Fix login"; Cases.from_bot "<@U012AB3CD> delete"])
    by (repeat constructor).
  exact (proj1 (bot_events_leave_no_trace Scenario.cfg0 Scenario.calm _ Cases.cached H)).
Defined.

Lemma bot_id_is_looked_up_once_witness :
  BOT_USER_ID
    (run Scenario.cfg0 Scenario.calm
       [Scenario.message "what is new?"; Scenario.file_share ["F1"]] Cases.cached)
  = Some "U012AB3CD".
Proof.
  assert (H1 : BOT_USER_ID Cases.cached = Some "U012AB3CD") by reflexivity.
  assert (H2 : "U012AB3CD" <> "") by discriminate.
  exact (proj1 (proj2 (bot_id_is_looked_up_once Scenario.cfg0 Scenario.calm
                         [Scenario.message "what is new?"; Scenario.file_share ["F1"]]
                         Cases.cached "U012AB3CD" H1 H2))).
Defined.


Lemma delete_block_outcome_witness :
  fst (delete_block Scenario.calm (Cases.no_channel "<@U012AB3CD> delete") initial_state)
  = Raise (Exception "'channel'")
  /\ trace (snd (delete_block Scenario.calm (Cases.no_channel "<@U012AB3CD> delete")
                   initial_state))
     = List.app (trace initial_state) [(delete_all_embeddings, true)].
Proof.
  assert (H1 : on_delete_all_embeddings Scenario.calm (trace initial_state) = Ok 0%Z)
    by reflexivity.
  assert (H2 : ev_channel (Cases.no_channel "<@U012AB3CD> delete") = None)
    by reflexivity.
  exact (proj2 (delete_block_outcome Scenario.calm
                  (Cases.no_channel "<@U012AB3CD> delete") initial_state 0%Z H1) H2).
Defined.





Lemma files_info_failure_escapes_witness :
  upload_loop Scenario.cfg0 Cases.files_info_down (Scenario.file_share ["F1"; "F2"])
    [{| f_id := Some "F1" |}; {| f_id := Some "F2" |}] initial_state
  = (Raise (Exception "file_not_found"),
     {| BOT_USER_ID := BOT_USER_ID initial_state;
        INDEXED_FILE_IDS := INDEXED_FILE_IDS initial_state;
        trace := List.app (trace initial_state) [(files_info "F1", false)] |}).
Proof.
  assert (H1 : f_id {| f_id := Some "F1" |} = Some "F1") by reflexivity.
  assert (H2 : "F1" <> "") by discriminate.
  assert (H3 : "F1" ∉ INDEXED_FILE_IDS initial_state) by apply not_elem_of_empty.
  assert (H4 : on_files_info Cases.files_info_down (trace initial_state) "F1"
               = Raise (Exception "file_not_found")) by reflexivity.
  exact (files_info_failure_escapes Scenario.cfg0 Cases.files_info_down
           (Scenario.file_share ["F1"; "F2"]) {| f_id := Some "F1" |}
           [{| f_id := Some "F2" |}] initial_state "F1" _ H1 H2 H3 H4).
Defined.

Lemma one_submission_per_event_witness :
  files_info_faithful Scenario.calm
  /\ exists new,
       trace (snd (on_message Scenario.cfg0 Scenario.calm
                     (Scenario.file_share ["F1"; "F2"]) initial_state))
       = List.app (trace initial_state) new
       /\ (length (indexings new) <= 1)%nat
       /\ (forall file_id ok,
              In (file_id, ok) (indexings new) ->
              file_id ∉ INDEXED_FILE_IDS initial_state)
       /\ INDEXED_FILE_IDS initial_state
          ⊆ INDEXED_FILE_IDS
              (snd (on_message Scenario.cfg0 Scenario.calm
                      (Scenario.file_share ["F1"; "F2"]) initial_state)).
Proof.
  split.
  - exact calm_files_info_faithful.
  - exact (one_submission_per_event Scenario.cfg0 Scenario.calm
             (Scenario.file_share ["F1"; "F2"]) initial_state
             calm_files_info_faithful).
Defined.

Lemma download_slack_file_final_status_witness :
  fst (download_slack_file Scenario.cfg0 Cases.gone "https://acme.slack.com/F1"
         initial_state)
  = Raise (Exception "404 Client Error: Not Found for url: https://acme.slack.com/F1")
  /\ fst (download_slack_file Scenario.cfg0 Cases.stale "https://acme.slack.com/F1"
            initial_state)
     = Ok [].
Proof.
  assert (H1 : fetch Scenario.cfg0 Cases.gone "https://acme.slack.com/F1" initial_state
               = (Ok Cases.not_found,
                  snd (fetch Scenario.cfg0 Cases.gone "https://acme.slack.com/F1"
                         initial_state))) by (vm_compute; reflexivity).
  assert (H2 : fetch Scenario.cfg0 Cases.stale "https://acme.slack.com/F1" initial_state
               = (Ok Cases.not_modified,
                  snd (fetch Scenario.cfg0 Cases.stale "https://acme.slack.com/F1"
                         initial_state))) by (vm_compute; reflexivity).
  split.
  - rewrite (proj1 (download_slack_file_final_status Scenario.cfg0 Cases.gone
                      _ _ _ _ H1)); [vm_compute; reflexivity|simpl; lia].
  - rewrite (proj2 (download_slack_file_final_status Scenario.cfg0 Cases.stale
                      _ _ _ _ H2)); [vm_compute; reflexivity|simpl; lia].
Defined.

Lemma create_github_issue_outcome_witness :
  exists msg,
    fst (create_github_issue Scenario.cfg0 Cases.tracker_rejects "Title" "Body"
           initial_state)
    = Raise (Exception (str_Z (status_code Cases.unprocessable) ++ msg)).
Proof.
  assert (N1 : "ghp_1" <> "") by discriminate.
  assert (N2 : "acme" <> "") by discriminate.
  assert (N3 : "tracker" <> "") by discriminate.
  destruct (create_github_issue_outcome Scenario.cfg0 Cases.tracker_rejects
              "Title" "Body" initial_state "ghp_1" "acme" "tracker"
              eq_refl eq_refl eq_refl N1 N2 N3) as (_ & _ & H).
  destruct (H Cases.unprocessable) as [H' _]; [reflexivity|].
  apply H'. simpl. lia.
Defined.

Lemma ingest_download_failure_witness :
  INDEXED_FILE_IDS
    (snd (ingest Scenario.cfg0 Scenario.logged_out (Scenario.file_share ["F1"]) "F1"
            (Scenario.file_of "F1") "https://acme.slack.com/F1" "F1.pdf" initial_state))
  = INDEXED_FILE_IDS
      (snd (download_slack_file Scenario.cfg0 Scenario.logged_out
              "https://acme.slack.com/F1" initial_state)).
Proof.
  assert (H : download_slack_file Scenario.cfg0 Scenario.logged_out
                "https://acme.slack.com/F1" initial_state
              = (Raise (html_error Scenario.login_page),
                 snd (download_slack_file Scenario.cfg0 Scenario.logged_out
                        "https://acme.slack.com/F1" initial_state)))
    by (vm_compute; reflexivity).
  exact (proj2 (ingest_download_failure Scenario.cfg0 Scenario.logged_out
                  (Scenario.file_share ["F1"]) "F1" (Scenario.file_of "F1")
                  "https://acme.slack.com/F1" "F1.pdf" initial_state _ _ H)).
Defined.



